(** * debug_chromadb.py: a shallow embedding and its verified properties

    The script connects to a ChromaDB service, prints a heartbeat, lists the
    collections and previews up to three documents of each one.  Everything
    the script does is a [print], a call on the client library, or control
    flow around the two [try]/[except] blocks, so the embedding is a small
    monad over
      - the text printed so far (one entry per [print] call), and
      - a log of the calls made on the client library,
    with three ways for a computation to end: it returns, it raises an
    [Exception], or it leaves the process through [sys.exit]. *)

From Stdlib Require Import String Ascii List ZArith Arith Bool Lia.
From Stdlib Require Import Sorted DecimalString.
Import ListNotations.
Open Scope string_scope.

Set Implicit Arguments.

(** ** Python values the script handles *)

(** An instance of a subclass of [Exception]: its class name and the text
    that [f"{e}"] interpolates. *)
Record exn := Exn { exn_class : string; exn_text : string }.

(** What a call on the client library does: it returns or it raises. *)
Inductive result (A : Type) :=
| Ok (a : A)
| Raise (e : exn).
Arguments Ok {A} a.
Arguments Raise {A} e.

(** [str(n)] for a Python [int] and for a [len(...)]. *)
Definition str_int (z : Z) : string := NilZero.string_of_int (Z.to_int z).
Definition str_len (n : nat) : string := NilZero.string_of_uint (Nat.to_uint n).

(** The line feed that ["\n"] denotes in the two f-strings that use it. *)
Definition nl : string := String (ascii_of_nat 10) EmptyString.

(** ** The client library, as the script sees it *)

(** [collection.get(...)] answers with a mapping; the script reads its
    ['documents'] and ['metadatas'] entries.  Either can be [None].  An
    entry of the document list is a [str], or [None] for a record stored
    without text.  A metadata entry is kept as the text its interpolation
    prints (["None"] for a record without metadata). *)
Record GetResult := {
  documents : option (list (option string));
  metadatas : option (list string)
}.

(** A collection object: three attributes (kept as the text their
    interpolation prints) and the two methods the script calls.  [get]
    receives the [limit] and [include] arguments. *)
Record Collection := {
  name : string;
  id : string;
  metadata : string;
  count : result Z;
  get : Z -> list string -> result GetResult
}.

(** The object [chromadb.HttpClient(...)] returns. *)
Record Client := {
  heartbeat : result Z;
  list_collections : result (list Collection)
}.

(** The [chromadb] module: its [HttpClient] constructor, given host and
    port. *)
Record Chromadb := {
  HttpClient : string -> Z -> result Client
}.

(** ** The log of library calls

    A per-collection call carries the position of the collection in the
    list that [list_collections] returned. *)
Inductive op :=
| OpConnect (host : string) (port : Z)
| OpHeartbeat
| OpList
| OpCount (k : nat)
| OpGet (k : nat) (limit : Z) (include : list string).

(** ** The monad *)

Record world := World {
  stdout : list string;
  calls : list op
}.

Definition empty_world : world := World [] [].

Definition world_app (w d : world) : world :=
  World (stdout w ++ stdout d) (calls w ++ calls d).

Inductive outcome (A : Type) :=
| Returned (a : A)
| Raised (e : exn)
| Exited (code : Z).
Arguments Returned {A} a.
Arguments Raised {A} e.
Arguments Exited {A} code.

Definition M (A : Type) : Type := world -> outcome A * world.

Definition ret {A} (a : A) : M A := fun w => (Returned a, w).

Definition bind {A B} (m : M A) (f : A -> M B) : M B :=
  fun w =>
    match m w with
    | (Returned a, w') => f a w'
    | (Raised e, w') => (Raised e, w')
    | (Exited c, w') => (Exited c, w')
    end.

Notation "x <- m ;; k" := (bind m (fun x => k))
  (at level 61, m at next level, right associativity).
Notation "m ;; k" := (bind m (fun _ => k))
  (at level 61, right associativity).

(** [print(s)] *)
Definition print (s : string) : M unit :=
  fun w => (Returned tt, World (stdout w ++ [s]) (calls w)).

(** A call on the client library: logged, then its answer. *)
Definition call {A} (o : op) (r : result A) : M A :=
  fun w =>
    let w' := World (stdout w) (calls w ++ [o]) in
    match r with
    | Ok a => (Returned a, w')
    | Raise e => (Raised e, w')
    end.

Definition raise {A} (e : exn) : M A := fun w => (Raised e, w).

(** [sys.exit(code)] raises [SystemExit], which no [except Exception]
    catches. *)
Definition sys_exit {A} (code : Z) : M A := fun w => (Exited code, w).

(** [try: body / except Exception as e: handler] *)
Definition try_except (body : M unit) (handler : exn -> M unit) : M unit :=
  fun w =>
    match body w with
    | (Returned a, w') => (Returned a, w')
    | (Raised e, w') => handler e w'
    | (Exited c, w') => (Exited c, w')
    end.

(** [for i, x in enumerate(xs): body], counting from [i]. *)
Fixpoint for_enumerate_from {A} (i : nat) (xs : list A)
    (body : nat -> A -> M unit) : M unit :=
  match xs with
  | [] => ret tt
  | x :: xs' => body i x ;; for_enumerate_from (S i) xs' body
  end.

Definition for_enumerate {A} (xs : list A) (body : nat -> A -> M unit) : M unit :=
  for_enumerate_from 0 xs body.

(** ** The script *)

(** [xs[:n]] on a list. *)
Definition slice_to {A} (n : nat) (xs : list A) : list A := firstn n xs.

(** [doc[:100] + "..." if len(doc) > 100 else doc]: the conditional
    expression binds weaker than [+], so the ellipsis belongs to the first
    branch.  A character of the model stands for a character of the Python
    string: [len] and the slice count characters. *)
Definition preview (doc : string) : string :=
  if (100 <? String.length doc)%nat then substring 0 100 doc ++ "..." else doc.

(** Subscripting and slicing [None] raise [TypeError]. *)
Definition not_subscriptable : exn :=
  Exn "TypeError" "'NoneType' object is not subscriptable".

(** [xs[i]] on a list raises [IndexError] out of range. *)
Definition index_error : exn := Exn "IndexError" "list index out of range".

Definition subscript {A} (xs : list A) (i : nat) : M A :=
  match nth_error xs i with
  | Some x => ret x
  | None => raise index_error
  end.

(** [sample['metadatas'] and i < len(sample['metadatas'])]: [None] and the
    empty list are falsy, and [and] then skips its right operand. *)
Definition has_metadata (sample : GetResult) (i : nat) : bool :=
  match metadatas sample with
  | None => false
  | Some [] => false
  | Some ms => (i <? List.length ms)%nat
  end.

(** [len(None)] raises [TypeError]. *)
Definition no_len : exn :=
  Exn "TypeError" "object of type 'NoneType' has no len()".

(** Line 36 on an entry of the document list: the condition [len(doc) >
    100] is evaluated first, and raises when the entry is [None]. *)
Definition preview_of (doc : option string) : M string :=
  match doc with
  | Some d => ret (preview d)
  | None => raise no_len
  end.

(** The body of the inner [for] loop, lines 36 to 40. *)
Definition show_document (sample : GetResult) (i : nat) (doc : option string) : M unit :=
  pv <- preview_of doc ;;
  print ("    [" ++ str_len i ++ "]: " ++ pv) ;;
  if has_metadata sample i then
    match metadatas sample with
    | Some ms =>
        m <- subscript ms i ;;
        print ("         Metadata: " ++ m)
    | None => raise not_subscriptable
    end
  else ret tt.

(** Lines 35 to 40: the loop over [sample['documents'][:3]]. *)
Definition show_sample (sample : GetResult) : M unit :=
  match documents sample with
  | None => raise not_subscriptable
  | Some docs => for_enumerate (slice_to 3 docs) (show_document sample)
  end.

Definition sample_include : list string := ["metadatas"; "documents"].

(** Lines 28 to 40: the body of the inner [try]. *)
Definition collection_details (k : nat) (c : Collection) : M unit :=
  n <- call (OpCount k) (count c) ;;
  print ("  Document count: " ++ str_int n) ;;
  if (0 <? n)%Z then
    sample <- call (OpGet k 3 sample_include) (get c 3%Z sample_include) ;;
    print "  Sample documents:" ;;
    show_sample sample
  else ret tt.

(** Lines 22 to 43: the body of the loop over the collections.  The
    position [k] of the collection is there for the log of calls only; the
    printed text does not depend on it. *)
Definition show_collection (k : nat) (c : Collection) : M unit :=
  print (nl ++ "  Collection: " ++ name c) ;;
  print ("  ID: " ++ id c) ;;
  print ("  Metadata: " ++ metadata c) ;;
  try_except (collection_details k c)
    (fun e => print ("  [ERROR] Error getting collection details: " ++ exn_text e)).

(** Lines 11 to 43: the body of the outer [try].  [for collection in
    collections] is run as an enumeration so that each call can be logged
    with the position of its collection. *)
Definition connect_and_list (chromadb : Chromadb) : M unit :=
  client <- call (OpConnect "localhost" 8000) (HttpClient chromadb "localhost" 8000%Z) ;;
  hb <- call OpHeartbeat (heartbeat client) ;;
  print ("[OK] ChromaDB connection successful: " ++ str_int hb) ;;
  collections <- call OpList (list_collections client) ;;
  print (nl ++ "[INFO] Found " ++ str_len (length collections) ++ " collections:") ;;
  for_enumerate collections show_collection.

(** Lines 6 to 47. *)
Definition debug_chromadb (chromadb : Chromadb) : M unit :=
  print "=== ChromaDB Debug Info ===" ;;
  try_except (connect_and_list chromadb)
    (fun e =>
       print ("[ERROR] ChromaDB connection failed: " ++ exn_text e) ;;
       sys_exit 1).

(** ** The process *)

(** What the interpreter is started with: the command line and the
    [chromadb] module it imports (that is, the service behind it). *)
Record process := {
  argv : list string;
  chromadb_module : Chromadb
}.

(** Exit status of the interpreter: 0 when the script runs to its end, the
    code of [sys.exit], 1 for an exception nobody caught. *)
Definition exit_status {A} (o : outcome A) : Z :=
  match o with
  | Returned _ => 0
  | Raised _ => 1
  | Exited c => c
  end.

(** Lines 49 and 50: the script is run as [__main__]. *)
Definition main (p : process) : outcome unit * world :=
  debug_chromadb (chromadb_module p) empty_world.

Definition run_status (p : process) : Z := exit_status (fst (main p)).
Definition run_stdout (p : process) : list string := stdout (snd (main p)).
Definition run_calls (p : process) : list op := calls (snd (main p)).

(** * Vocabulary of the statements *)

(** ** Concatenating worlds *)

Fixpoint world_concat (ds : list world) : world :=
  match ds with
  | [] => empty_world
  | d :: ds' => world_app d (world_concat ds')
  end.

(** ** What a computation adds to the world

    Every computation of the script only appends to the world and never
    looks at what is already there: [framed m] says so, and lets a
    computation be studied from the empty world. *)

Definition answer {A} (m : M A) : outcome A := fst (m empty_world).
Definition added {A} (m : M A) : world := snd (m empty_world).

Definition framed {A} (m : M A) : Prop :=
  forall w, m w = (answer m, world_app w (added m)).

(** ** Enumerations *)

(** [enumerate(xs)], as a list of pairs. *)
Fixpoint enumerate_from {A} (i : nat) (xs : list A) : list (nat * A) :=
  match xs with
  | [] => []
  | x :: xs' => (i, x) :: enumerate_from (S i) xs'
  end.

Definition enumerate {A} (xs : list A) : list (nat * A) := enumerate_from 0 xs.

Definition added_by {A} (body : nat -> A -> M unit) (ix : nat * A) : world :=
  added (body (fst ix) (snd ix)).

(** ** The lines, by name *)

Definition banner : string := "=== ChromaDB Debug Info ===".
Definition connected_line (hb : Z) : string :=
  "[OK] ChromaDB connection successful: " ++ str_int hb.
Definition found_line (n : nat) : string :=
  nl ++ "[INFO] Found " ++ str_len n ++ " collections:".
Definition collection_line (c : Collection) : string :=
  nl ++ "  Collection: " ++ name c.
Definition id_line (c : Collection) : string := "  ID: " ++ id c.
Definition collection_metadata_line (c : Collection) : string :=
  "  Metadata: " ++ metadata c.
Definition count_line (n : Z) : string := "  Document count: " ++ str_int n.
Definition sample_header : string := "  Sample documents:".
Definition preview_line (i : nat) (doc : string) : string :=
  "    [" ++ str_len i ++ "]: " ++ preview doc.
Definition metadata_line (m : string) : string := "         Metadata: " ++ m.
Definition details_error_line (e : exn) : string :=
  "  [ERROR] Error getting collection details: " ++ exn_text e.
Definition connection_error_line (e : exn) : string :=
  "[ERROR] ChromaDB connection failed: " ++ exn_text e.

Definition collection_header (c : Collection) : list string :=
  [collection_line c; id_line c; collection_metadata_line c].

Definition connect_op : op := OpConnect "localhost" 8000.
Definition get_op (k : nat) : op := OpGet k 3 sample_include.

(** ** One previewed document *)

(** The metadata line of the [i]-th document, when there is one. *)
Definition metadata_lines (sample : GetResult) (i : nat) : list string :=
  match metadatas sample with
  | Some ms =>
      match nth_error ms i with
      | Some m => [metadata_line m]
      | None => []
      end
  | None => []
  end.

Definition document_lines (sample : GetResult) (ix : nat * string) : list string :=
  preview_line (fst ix) (snd ix) :: metadata_lines sample (fst ix).

(** The entries of a document list up to its first [None]. *)
Fixpoint leading_strings (docs : list (option string)) : list string :=
  match docs with
  | Some d :: docs' => d :: leading_strings docs'
  | _ => []
  end.

(** Whether every entry of a document list is a [str]. *)
Definition all_strings (docs : list (option string)) : bool :=
  forallb (fun doc => match doc with Some _ => true | None => false end) docs.

(** What the loop over [sample['documents'][:3]] prints: the lines of the
    entries before the first [None] among the first three. *)
Definition sample_lines (sample : GetResult) (docs : list (option string)) : list string :=
  flat_map (document_lines sample) (enumerate (leading_strings (slice_to 3 docs))).

(** The inline error line that ends the loop at a [None] entry. *)
Definition sample_error (docs : list (option string)) : list string :=
  if all_strings (slice_to 3 docs) then [] else [details_error_line no_len].

(** ** One collection *)

(** What the inner [try]/[except] prints, by cases on the answers of
    [count] and [get]. *)
Definition details_lines (c : Collection) : list string :=
  match count c with
  | Raise e => [details_error_line e]
  | Ok n =>
      count_line n ::
      if (0 <? n)%Z then
        match get c 3%Z sample_include with
        | Raise e => [details_error_line e]
        | Ok sample =>
            sample_header ::
            match documents sample with
            | None => [details_error_line not_subscriptable]
            | Some docs => sample_lines sample docs ++ sample_error docs
            end
        end
      else []
  end.

(** The calls it makes. *)
Definition details_calls (k : nat) (c : Collection) : list op :=
  OpCount k ::
  match count c with
  | Ok n => if (0 <? n)%Z then [get_op k] else []
  | Raise _ => []
  end.

Definition block (kc : nat * Collection) : world :=
  World (collection_header (snd kc) ++ details_lines (snd kc))
        (details_calls (fst kc) (snd kc)).

(** ** The whole run *)

Definition blocks (cols : list Collection) : world :=
  world_concat (map block (enumerate cols)).

(** * Fixtures: mock services for concrete runs *)

Definition refused : exn := Exn "ConnectionError" "Connection refused".
Definition boom : exn := Exn "InternalError" "boom".

Definition long_doc : string :=
  "0123456789012345678901234567890123456789012345678901234567890123456789012345678901234567890123456789abcde".

Definition notes : Collection := {|
  name := "notes"; id := "c-1"; metadata := "None";
  count := Ok 5%Z;
  get := fun _ _ =>
    Ok {| documents :=
            Some [Some "alpha"; Some long_doc; Some "gamma"; Some "delta";
                  Some "epsilon"];
          metadatas := Some ["{'page': 1}"] |}
|}.

Definition broken : Collection := {|
  name := "broken"; id := "c-2"; metadata := "None";
  count := Raise boom;
  get := fun _ _ => Raise boom
|}.

Definition vacant : Collection := {|
  name := "vacant"; id := "c-3"; metadata := "{'owner': 'qa'}";
  count := Ok 0%Z;
  get := fun _ _ => Ok {| documents := Some [Some "stale"]; metadatas := None |}
|}.

Definition unreadable : Collection := {|
  name := "unreadable"; id := "c-4"; metadata := "None";
  count := Ok 7%Z;
  get := fun _ _ => Raise boom
|}.

Definition client_with (cols : list Collection) : Client :=
  {| heartbeat := Ok 1700000000%Z; list_collections := Ok cols |}.

Definition client_down : Client :=
  {| heartbeat := Raise refused; list_collections := Ok [] |}.

Definition process_of (args : list string) (client : Client) : process :=
  {| argv := args; chromadb_module := {| HttpClient := fun _ _ => Ok client |} |}.

(** ** Blocks of the run *)

(** What the loop body prints and calls for the collection at position
    [fst kc]. *)
Definition shown (kc : nat * Collection) : list string :=
  stdout (added (show_collection (fst kc) (snd kc))).

Definition called (kc : nat * Collection) : list op :=
  calls (added (show_collection (fst kc) (snd kc))).

(** A line that opens a collection block. *)
Definition is_collection_line (s : string) : bool :=
  prefix (nl ++ "  Collection: ") s.

(** A line that previews a document. *)
Definition is_preview_line (s : string) : bool := prefix "    [" s.

(** The forms a line of the inner [try]/[except] can take. *)
Inductive details_line : string -> Prop :=
| DlCount n : details_line (count_line n)
| DlHeader : details_line sample_header
| DlPreview i doc : details_line (preview_line i doc)
| DlMetadata m : details_line (metadata_line m)
| DlError e : details_line (details_error_line e).

(** ** The shape of a collection block *)

(** One block per collection, in order: each opens with the name, ID and
    metadata lines of its collection and has no other collection line. *)
Definition block_of (c : Collection) (b : list string) : Prop :=
  exists details,
    b = ([(nl ++ "  Collection: " ++ name c)%string;
          ("  ID: " ++ id c)%string;
          ("  Metadata: " ++ metadata c)%string] ++ details)%list /\
    Forall (fun s => is_collection_line s = false) details.

(** ** The order of the calls *)

(** The place of a call in the chain: connection, heartbeat, listing, then
    for the collection at position [k] its [count] and its [get]. *)
Definition rank (o : op) : nat :=
  match o with
  | OpConnect _ _ => 0
  | OpHeartbeat => 1
  | OpList => 2
  | OpCount k => 3 + 2 * k
  | OpGet k _ _ => 4 + 2 * k
  end.

Definition op_before (a b : op) : Prop := rank a < rank b.

(** Every call comes strictly later in the chain than the calls before
    it. *)
Definition in_fixed_order (l : list op) : Prop := StronglySorted op_before l.





Definition per_collection (o : op) : bool :=
  match o with
  | OpCount _ | OpGet _ _ _ => true
  | _ => false
  end.



(** The four ways a run can go. *)
Inductive run_case (p : process) : Prop :=
| NoClient e :
    HttpClient (chromadb_module p) "localhost" 8000%Z = Raise e ->
    run_calls p = [connect_op] ->
    run_case p
| NoHeartbeat client e :
    HttpClient (chromadb_module p) "localhost" 8000%Z = Ok client ->
    heartbeat client = Raise e ->
    run_calls p = [connect_op; OpHeartbeat] ->
    run_case p
| NoListing client hb e :
    HttpClient (chromadb_module p) "localhost" 8000%Z = Ok client ->
    heartbeat client = Ok hb ->
    list_collections client = Raise e ->
    run_calls p = [connect_op; OpHeartbeat; OpList] ->
    run_case p
| Listed client hb cols :
    HttpClient (chromadb_module p) "localhost" 8000%Z = Ok client ->
    heartbeat client = Ok hb ->
    list_collections client = Ok cols ->
    run_calls p =
      ([connect_op; OpHeartbeat; OpList] ++ concat (map called (enumerate cols)))%list ->
    run_case p.

(** ** A run whose first collection fails *)


(** ** Kinds of calls *)

Definition is_connect (o : op) : bool :=
  match o with OpConnect _ _ => true | _ => false end.
Definition is_heartbeat (o : op) : bool :=
  match o with OpHeartbeat => true | _ => false end.
Definition is_list (o : op) : bool :=
  match o with OpList => true | _ => false end.
Definition is_count (k : nat) (o : op) : bool :=
  match o with OpCount j => Nat.eqb j k | _ => false end.
Definition is_get (k : nat) (o : op) : bool :=
  match o with OpGet j _ _ => Nat.eqb j k | _ => false end.

(** How many calls of a kind a run makes. *)
Definition occurrences (kind : op -> bool) (l : list op) : nat :=
  length (filter kind l).

(** ** More lines and calls, by kind *)

(** The line the outer [except] prints. *)
Definition is_connection_error_line (s : string) : bool :=
  prefix "[ERROR] ChromaDB connection failed: " s.


Definition is_count_call (o : op) : bool :=
  match o with OpCount _ => true | _ => false end.
Definition is_get_call (o : op) : bool :=
  match o with OpGet _ _ _ => true | _ => false end.

(** [count > 0] for the answer of [collection.count()]. *)
Definition has_documents (c : Collection) : bool :=
  match count c with
  | Ok n => (0 <? n)%Z
  | Raise _ => false
  end.

(** ** More mock services *)

Definition process_refused : process :=
  {| argv := []; chromadb_module := {| HttpClient := fun _ _ => Raise refused |} |}.

Definition client_unlisted : Client :=
  {| heartbeat := Ok 1700000000%Z; list_collections := Raise boom |}.


(** A collection whose second record was stored without text. *)
Definition untexted : Collection := {|
  name := "untexted"; id := "c-6"; metadata := "None";
  count := Ok 3%Z;
  get := fun _ _ =>
    Ok {| documents := Some [Some "kept"; None; Some "after"];
          metadatas := Some ["{'n': 1}"; "{'n': 2}"; "{'n': 3}"] |}
|}.

(** A collection none of whose records has text. *)
Definition textless : Collection := {|
  name := "textless"; id := "c-7"; metadata := "None";
  count := Ok 2%Z;
  get := fun _ _ =>
    Ok {| documents := Some [None; None]; metadatas := Some ["None"; "None"] |}
|}.


(** * Reasoning about computations *)

(** ** Worlds form a monoid under [world_app] *)

Lemma world_app_empty_r (w : world) : world_app w empty_world = w.
Proof. destruct w; unfold world_app; simpl; now rewrite !app_nil_r. Qed.

Lemma world_app_empty_l (w : world) : world_app empty_world w = w.
Proof. now destruct w. Qed.

Lemma world_app_assoc (a b c : world) :
  world_app (world_app a b) c = world_app a (world_app b c).
Proof. unfold world_app; simpl; now rewrite !app_assoc. Qed.

Lemma stdout_world_concat (ds : list world) :
  stdout (world_concat ds) = concat (map stdout ds).
Proof. induction ds as [|d ds IH]; simpl; [reflexivity | now rewrite IH]. Qed.

Lemma calls_world_concat (ds : list world) :
  calls (world_concat ds) = concat (map calls ds).
Proof. induction ds as [|d ds IH]; simpl; [reflexivity | now rewrite IH]. Qed.

(** ** Every computation of the script is framed *)

Lemma framed_ret {A} (a : A) : framed (ret a).
Proof. intro w; unfold ret, answer, added; simpl; now rewrite world_app_empty_r. Qed.

Lemma framed_raise {A} (e : exn) : framed (@raise A e).
Proof. intro w; unfold raise, answer, added; simpl; now rewrite world_app_empty_r. Qed.

Lemma framed_sys_exit {A} (c : Z) : framed (@sys_exit A c).
Proof. intro w; unfold sys_exit, answer, added; simpl; now rewrite world_app_empty_r. Qed.

Lemma framed_print (s : string) : framed (print s).
Proof.
  intro w; unfold print, answer, added, world_app; simpl.
  now rewrite app_nil_r.
Qed.

Lemma framed_call {A} (o : op) (r : result A) : framed (call o r).
Proof.
  intro w; unfold call, answer, added, world_app; destruct r; simpl;
    now rewrite app_nil_r.
Qed.

Lemma framed_bind {A B} (m : M A) (f : A -> M B) :
  framed m -> (forall a, framed (f a)) -> framed (bind m f).
Proof.
  intros Hm Hf w. unfold answer, added, bind.
  rewrite (Hm w), (Hm empty_world), world_app_empty_l.
  destruct (answer m) as [a|e|c]; simpl; try reflexivity.
  rewrite (Hf a (world_app w (added m))), (Hf a (added m)); simpl.
  now rewrite world_app_assoc.
Qed.

Lemma framed_try_except (body : M unit) (handler : exn -> M unit) :
  framed body -> (forall e, framed (handler e)) -> framed (try_except body handler).
Proof.
  intros Hm Hf w. unfold answer, added, try_except.
  rewrite (Hm w), (Hm empty_world), world_app_empty_l.
  destruct (answer body) as [a|e|c]; simpl; try reflexivity.
  rewrite (Hf e (world_app w (added body))), (Hf e (added body)); simpl.
  now rewrite world_app_assoc.
Qed.

Lemma framed_for_enumerate_from {A} (body : nat -> A -> M unit) (xs : list A) :
  (forall i x, framed (body i x)) ->
  forall i, framed (for_enumerate_from i xs body).
Proof.
  intro Hb; induction xs as [|x xs IH]; intro i; simpl.
  - apply framed_ret.
  - apply framed_bind; [apply Hb | intros _; apply IH].
Qed.

Lemma framed_subscript {A} (xs : list A) (i : nat) : framed (subscript xs i).
Proof.
  unfold subscript; destruct (nth_error xs i); [apply framed_ret | apply framed_raise].
Qed.

Create HintDb framed.
#[export] Hint Resolve framed_ret framed_raise framed_sys_exit framed_print
  framed_call framed_subscript : framed.

Ltac frame :=
  repeat first
    [ apply framed_bind; [| intro]
    | apply framed_try_except; [| intro]
    | apply framed_for_enumerate_from; intros
    | solve [auto with framed]
    | match goal with |- framed (if ?b then _ else _) => destruct b end
    | match goal with |- framed (match ?o with Some _ => _ | None => _ end) =>
        destruct o end ].

Lemma framed_preview_of doc : framed (preview_of doc).
Proof. destruct doc; [apply framed_ret | apply framed_raise]. Qed.
#[export] Hint Resolve framed_preview_of : framed.

Lemma framed_show_document sample i doc : framed (show_document sample i doc).
Proof. unfold show_document; frame. Qed.
#[export] Hint Resolve framed_show_document : framed.

Lemma framed_show_sample sample : framed (show_sample sample).
Proof. unfold show_sample, for_enumerate; frame. Qed.
#[export] Hint Resolve framed_show_sample : framed.

Lemma framed_collection_details k c : framed (collection_details k c).
Proof. unfold collection_details; frame. Qed.
#[export] Hint Resolve framed_collection_details : framed.

Lemma framed_show_collection k c : framed (show_collection k c).
Proof. unfold show_collection; frame. Qed.
#[export] Hint Resolve framed_show_collection : framed.

Lemma framed_connect_and_list chromadb : framed (connect_and_list chromadb).
Proof. unfold connect_and_list, for_enumerate; frame. Qed.
#[export] Hint Resolve framed_connect_and_list : framed.

Lemma framed_debug_chromadb chromadb : framed (debug_chromadb chromadb).
Proof. unfold debug_chromadb; frame. Qed.
#[export] Hint Resolve framed_debug_chromadb : framed.

(** ** Running a framed computation from any world *)

Lemma run_framed {A} (m : M A) (o : outcome A) (d : world) :
  (forall w, m w = (o, world_app w d)) -> answer m = o /\ added m = d.
Proof.
  intro H; unfold answer, added; rewrite (H empty_world), world_app_empty_l.
  now split.
Qed.

(** ** Loops whose body always returns *)

Lemma length_enumerate_from {A} (xs : list A) (i : nat) :
  length (enumerate_from i xs) = length xs.
Proof. revert i; induction xs as [|x xs IH]; intro i; simpl; auto. Qed.

Lemma nth_error_enumerate_from {A} (xs : list A) (i k : nat) :
  nth_error (enumerate_from i xs) k = option_map (pair (i + k)) (nth_error xs k).
Proof.
  revert i k; induction xs as [|x xs IH]; intros i [|k]; simpl; auto.
  - now rewrite Nat.add_0_r.
  - rewrite IH. now replace (S i + k) with (i + S k) by lia.
Qed.

Lemma In_enumerate_from {A} (xs : list A) (i k : nat) (x : A) :
  In (k, x) (enumerate_from i xs) <-> i <= k /\ nth_error xs (k - i) = Some x.
Proof.
  revert i; induction xs as [|y xs IH]; intro i; simpl.
  - split; [tauto | intros [_ H]; now destruct (k - i)].
  - rewrite IH. split.
    + intros [H | [Hle H]].
      * inversion H; subst. now rewrite Nat.sub_diag.
      * split; [lia |]. now replace (k - i) with (S (k - S i)) by lia.
    + intros [Hle H]. destruct (k - i) as [|j] eqn:E.
      * left. inversion H. f_equal. lia.
      * right. split; [lia |]. now replace (k - S i) with j by lia.
Qed.

Lemma run_for_enumerate_from {A} (body : nat -> A -> M unit) (xs : list A) :
  (forall i x, framed (body i x)) ->
  (forall i x, answer (body i x) = Returned tt) ->
  forall i w,
    for_enumerate_from i xs body w =
    (Returned tt,
     world_app w (world_concat (map (added_by body) (enumerate_from i xs)))).
Proof.
  intros Hf Hr; induction xs as [|x xs IH]; intros i w; simpl.
  - unfold ret; now rewrite world_app_empty_r.
  - unfold bind. rewrite (Hf i x w), (Hr i x), IH.
    unfold added_by at 2; simpl. now rewrite world_app_assoc.
Qed.

(** * What the script prints and calls *)

(** ** One previewed document *)

Ltac same_world :=
  unfold world_app; simpl; rewrite <- ?app_assoc; simpl; rewrite ?app_nil_r;
  try reflexivity.

Lemma has_metadata_true (sample : GetResult) (i : nat) :
  has_metadata sample i = true ->
  exists ms m, metadatas sample = Some ms /\ nth_error ms i = Some m.
Proof.
  unfold has_metadata. destruct (metadatas sample) as [[|m0 ms]|]; try discriminate.
  intro H; apply Nat.ltb_lt in H.
  destruct (nth_error (m0 :: ms) i) as [m|] eqn:E.
  - now exists (m0 :: ms), m.
  - apply nth_error_None in E. lia.
Qed.

Lemma has_metadata_false (sample : GetResult) (i : nat) :
  has_metadata sample i = false -> metadata_lines sample i = [].
Proof.
  unfold has_metadata, metadata_lines.
  destruct (metadatas sample) as [[|m0 ms]|]; intro H; try reflexivity.
  - now destruct i.
  - apply Nat.ltb_ge in H. apply nth_error_None in H. now rewrite H.
Qed.

Lemma run_show_document (sample : GetResult) (i : nat) (doc : string) (w : world) :
  show_document sample i (Some doc) w =
  (Returned tt, world_app w (World (document_lines sample (i, doc)) [])).
Proof.
  unfold show_document, preview_of, document_lines, bind, print, ret; simpl.
  destruct (has_metadata sample i) eqn:E.
  - destruct (has_metadata_true _ _ E) as (ms & m & Hms & Hm).
    unfold metadata_lines, subscript. rewrite Hms, Hm. unfold ret; simpl.
    f_equal. same_world.
  - rewrite (has_metadata_false _ _ E). f_equal. same_world.
Qed.

Lemma run_show_document_none (sample : GetResult) (i : nat) (w : world) :
  show_document sample i None w = (Raised no_len, w).
Proof. reflexivity. Qed.

(** The loop over the documents stops at the first [None] entry. *)
Lemma run_documents (sample : GetResult) (docs : list (option string)) :
  forall i w,
    for_enumerate_from i docs (show_document sample) w =
    (if all_strings docs then Returned tt else Raised no_len,
     world_app w
       (World (flat_map (document_lines sample)
                        (enumerate_from i (leading_strings docs))) [])).
Proof.
  induction docs as [|[d|] docs IH]; intros i w.
  - simpl. unfold ret. now rewrite world_app_empty_r.
  - cbn [for_enumerate_from]. unfold bind. rewrite run_show_document, IH.
    change (all_strings (Some d :: docs)) with (all_strings docs).
    cbn [leading_strings enumerate_from flat_map].
    now rewrite world_app_assoc.
  - cbn [for_enumerate_from]. unfold bind. rewrite run_show_document_none.
    change (all_strings (None :: docs)) with false.
    cbn [leading_strings enumerate_from flat_map].
    now rewrite world_app_empty_r.
Qed.

Lemma run_show_sample (sample : GetResult) (docs : list (option string)) (w : world) :
  documents sample = Some docs ->
  show_sample sample w =
  (if all_strings (slice_to 3 docs) then Returned tt else Raised no_len,
   world_app w (World (sample_lines sample docs) [])).
Proof.
  intro H. unfold show_sample, for_enumerate. rewrite H.
  apply run_documents.
Qed.

Lemma run_show_sample_none (sample : GetResult) (w : world) :
  documents sample = None ->
  show_sample sample w = (Raised not_subscriptable, w).
Proof. intro H. unfold show_sample. now rewrite H. Qed.

(** ** One collection *)

Lemma run_show_collection (k : nat) (c : Collection) (w : world) :
  show_collection k c w = (Returned tt, world_app w (block (k, c))).
Proof.
  unfold show_collection, collection_details, block, details_lines, details_calls,
    bind, print, try_except, call; simpl.
  destruct (count c) as [n|e]; simpl; [| f_equal; same_world].
  destruct (0 <? n)%Z; simpl; [| unfold ret; f_equal; same_world].
  destruct (get c 3%Z sample_include) as [sample|e]; simpl; [| f_equal; same_world].
  destruct (documents sample) as [docs|] eqn:D.
  - rewrite (run_show_sample _ _ D). unfold sample_error.
    destruct (all_strings (slice_to 3 docs)); f_equal; same_world.
  - rewrite (run_show_sample_none _ _ D). f_equal. same_world.
Qed.

Lemma concat_added_collections (l : list (nat * Collection)) :
  world_concat (map (added_by show_collection) l) = world_concat (map block l).
Proof.
  induction l as [|[k c] l IH]; simpl; [reflexivity |].
  rewrite IH. unfold added_by, added; simpl.
  now rewrite run_show_collection, world_app_empty_l.
Qed.

Lemma run_collections (cols : list Collection) (w : world) :
  for_enumerate cols show_collection w =
  (Returned tt, world_app w (world_concat (map block (enumerate cols)))).
Proof.
  unfold for_enumerate. rewrite run_for_enumerate_from.
  - now rewrite concat_added_collections.
  - auto with framed.
  - intros i x. unfold answer. now rewrite run_show_collection.
Qed.

(** ** The whole run *)

(** The four ways the outer [try] block can go. *)
Lemma run_connect_raises (chromadb : Chromadb) (e : exn) (w : world) :
  HttpClient chromadb "localhost" 8000%Z = Raise e ->
  connect_and_list chromadb w = (Raised e, world_app w (World [] [connect_op])).
Proof.
  intro H. unfold connect_and_list, bind, call. rewrite H; simpl.
  f_equal. same_world.
Qed.

Lemma run_heartbeat_raises (chromadb : Chromadb) (client : Client) (e : exn) (w : world) :
  HttpClient chromadb "localhost" 8000%Z = Ok client ->
  heartbeat client = Raise e ->
  connect_and_list chromadb w =
  (Raised e, world_app w (World [] [connect_op; OpHeartbeat])).
Proof.
  intros H1 H2. unfold connect_and_list, bind, call. rewrite H1; simpl.
  rewrite H2; simpl. f_equal. same_world.
Qed.

Lemma run_list_raises (chromadb : Chromadb) (client : Client) (hb : Z) (e : exn)
    (w : world) :
  HttpClient chromadb "localhost" 8000%Z = Ok client ->
  heartbeat client = Ok hb ->
  list_collections client = Raise e ->
  connect_and_list chromadb w =
  (Raised e,
   world_app w (World [connected_line hb] [connect_op; OpHeartbeat; OpList])).
Proof.
  intros H1 H2 H3. unfold connect_and_list, bind, call, print. rewrite H1; simpl.
  rewrite H2; simpl. rewrite H3; simpl. f_equal. same_world.
Qed.

Lemma run_listed (chromadb : Chromadb) (client : Client) (hb : Z)
    (cols : list Collection) (w : world) :
  HttpClient chromadb "localhost" 8000%Z = Ok client ->
  heartbeat client = Ok hb ->
  list_collections client = Ok cols ->
  connect_and_list chromadb w =
  (Returned tt,
   world_app w
     (world_app (World [connected_line hb; found_line (length cols)]
                       [connect_op; OpHeartbeat; OpList])
                (blocks cols))).
Proof.
  intros H1 H2 H3. unfold connect_and_list, bind, call, print. rewrite H1; simpl.
  rewrite H2; simpl. rewrite H3; simpl. rewrite run_collections.
  f_equal. fold (blocks cols). same_world.
Qed.

(** The outer [try] block returns or raises; it never leaves the process. *)
Lemma answer_connect_and_list (chromadb : Chromadb) :
  answer (connect_and_list chromadb) = Returned tt \/
  exists e, answer (connect_and_list chromadb) = Raised e.
Proof.
  unfold answer.
  destruct (HttpClient chromadb "localhost" 8000%Z) as [client|e] eqn:H1.
  2: { right; exists e. now rewrite (run_connect_raises _ _ H1). }
  destruct (heartbeat client) as [hb|e] eqn:H2.
  2: { right; exists e. now rewrite (run_heartbeat_raises _ _ H1 H2). }
  destruct (list_collections client) as [cols|e] eqn:H3.
  2: { right; exists e. now rewrite (run_list_raises _ _ H1 H2 H3). }
  left. now rewrite (run_listed _ _ H1 H2 H3).
Qed.

(** The run, from what the outer [try] block does. *)
Lemma main_returned (p : process) :
  answer (connect_and_list (chromadb_module p)) = Returned tt ->
  main p =
  (Returned tt,
   world_app (World [banner] []) (added (connect_and_list (chromadb_module p)))).
Proof.
  intro H. unfold main, debug_chromadb, bind, print, try_except; simpl.
  match goal with
  | |- context [connect_and_list ?c ?w] => rewrite (framed_connect_and_list c w)
  end.
  now rewrite H.
Qed.

Lemma main_raised (p : process) (e : exn) :
  answer (connect_and_list (chromadb_module p)) = Raised e ->
  main p =
  (Exited 1,
   world_app (World [banner] [])
     (world_app (added (connect_and_list (chromadb_module p)))
                (World [connection_error_line e] []))).
Proof.
  intro H. unfold main, debug_chromadb, bind, print, try_except, sys_exit; simpl.
  match goal with
  | |- context [connect_and_list ?c ?w] => rewrite (framed_connect_and_list c w)
  end.
  rewrite H. f_equal. same_world.
Qed.

Lemma main_listed (p : process) (client : Client) (hb : Z) (cols : list Collection) :
  HttpClient (chromadb_module p) "localhost" 8000%Z = Ok client ->
  heartbeat client = Ok hb ->
  list_collections client = Ok cols ->
  main p =
  (Returned tt,
   world_app (World [banner; connected_line hb; found_line (length cols)]
                    [connect_op; OpHeartbeat; OpList])
             (blocks cols)).
Proof.
  intros H1 H2 H3.
  destruct (run_framed (connect_and_list (chromadb_module p))
              (fun w => run_listed _ w H1 H2 H3)) as [Ha Hd].
  rewrite (main_returned _ Ha), Hd. same_world.
Qed.

Lemma main_connect_raises (p : process) (e : exn) :
  HttpClient (chromadb_module p) "localhost" 8000%Z = Raise e ->
  main p = (Exited 1, World [banner; connection_error_line e] [connect_op]).
Proof.
  intro H1.
  destruct (run_framed (connect_and_list (chromadb_module p))
              (fun w => run_connect_raises _ w H1)) as [Ha Hd].
  rewrite (main_raised _ Ha), Hd. same_world.
Qed.

Lemma main_heartbeat_raises (p : process) (client : Client) (e : exn) :
  HttpClient (chromadb_module p) "localhost" 8000%Z = Ok client ->
  heartbeat client = Raise e ->
  main p =
  (Exited 1, World [banner; connection_error_line e] [connect_op; OpHeartbeat]).
Proof.
  intros H1 H2.
  destruct (run_framed (connect_and_list (chromadb_module p))
              (fun w => run_heartbeat_raises _ w H1 H2)) as [Ha Hd].
  rewrite (main_raised _ Ha), Hd. same_world.
Qed.

Lemma main_list_raises (p : process) (client : Client) (hb : Z) (e : exn) :
  HttpClient (chromadb_module p) "localhost" 8000%Z = Ok client ->
  heartbeat client = Ok hb ->
  list_collections client = Raise e ->
  main p =
  (Exited 1,
   World [banner; connected_line hb; connection_error_line e]
         [connect_op; OpHeartbeat; OpList]).
Proof.
  intros H1 H2 H3.
  destruct (run_framed (connect_and_list (chromadb_module p))
              (fun w => run_list_raises _ w H1 H2 H3)) as [Ha Hd].
  rewrite (main_raised _ Ha), Hd. same_world.
Qed.

(** * Concrete runs *)

Example run_of_four_collections :
  main (process_of [] (client_with [notes; broken; vacant; unreadable])) =
  (Returned tt,
   World
     ["=== ChromaDB Debug Info ===";
      "[OK] ChromaDB connection successful: 1700000000";
      nl ++ "[INFO] Found 4 collections:";
      nl ++ "  Collection: notes";
      "  ID: c-1";
      "  Metadata: None";
      "  Document count: 5";
      "  Sample documents:";
      "    [0]: alpha";
      "         Metadata: {'page': 1}";
      "    [1]: " ++ substring 0 100 long_doc ++ "...";
      "    [2]: gamma";
      nl ++ "  Collection: broken";
      "  ID: c-2";
      "  Metadata: None";
      "  [ERROR] Error getting collection details: boom";
      nl ++ "  Collection: vacant";
      "  ID: c-3";
      "  Metadata: {'owner': 'qa'}";
      "  Document count: 0";
      nl ++ "  Collection: unreadable";
      "  ID: c-4";
      "  Metadata: None";
      "  Document count: 7";
      "  [ERROR] Error getting collection details: boom"]
     [OpConnect "localhost" 8000; OpHeartbeat; OpList;
      OpCount 0; OpGet 0 3 ["metadatas"; "documents"];
      OpCount 1;
      OpCount 2;
      OpCount 3; OpGet 3 3 ["metadatas"; "documents"]]).
Proof. reflexivity. Qed.

Example run_without_heartbeat :
  main (process_of [] client_down) =
  (Exited 1,
   World
     ["=== ChromaDB Debug Info ===";
      "[ERROR] ChromaDB connection failed: Connection refused"]
     [OpConnect "localhost" 8000; OpHeartbeat]).
Proof. reflexivity. Qed.

Example run_with_untexted_records :
  main (process_of [] (client_with [untexted; textless])) =
  (Returned tt,
   World
     ["=== ChromaDB Debug Info ===";
      "[OK] ChromaDB connection successful: 1700000000";
      nl ++ "[INFO] Found 2 collections:";
      nl ++ "  Collection: untexted";
      "  ID: c-6";
      "  Metadata: None";
      "  Document count: 3";
      "  Sample documents:";
      "    [0]: kept";
      "         Metadata: {'n': 1}";
      "  [ERROR] Error getting collection details: object of type 'NoneType' has no len()";
      nl ++ "  Collection: textless";
      "  ID: c-7";
      "  Metadata: None";
      "  Document count: 2";
      "  Sample documents:";
      "  [ERROR] Error getting collection details: object of type 'NoneType' has no len()"]
     [OpConnect "localhost" 8000; OpHeartbeat; OpList;
      OpCount 0; OpGet 0 3 ["metadatas"; "documents"];
      OpCount 1; OpGet 1 3 ["metadatas"; "documents"]]).
Proof. reflexivity. Qed.

(** * The claims *)

(** ** C1: exit status *)

(** C1.  When the heartbeat call raises, the script prints the connection
    error with the exception's text and the process exits with status 1;
    when no exception comes out of the outer [try] block, the process
    exits with status 0. *)
Theorem exit_status_reports_connection (p : process) :
  (forall client e,
     HttpClient (chromadb_module p) "localhost" 8000%Z = Ok client ->
     heartbeat client = Raise e ->
     run_status p = 1%Z /\
     run_stdout p =
       ["=== ChromaDB Debug Info ===";
        "[ERROR] ChromaDB connection failed: " ++ exn_text e]) /\
  ((forall e, answer (connect_and_list (chromadb_module p)) <> Raised e) ->
   run_status p = 0%Z).
Proof.
  split.
  - intros client e H1 H2. unfold run_status, run_stdout.
    now rewrite (main_heartbeat_raises _ H1 H2).
  - intro H. unfold run_status.
    destruct (answer_connect_and_list (chromadb_module p)) as [Hr | [e He]].
    + now rewrite (main_returned _ Hr).
    + now destruct (H e).
Qed.

Lemma exit_status_reports_connection_witness :
  (run_status (process_of [] client_down) = 1%Z /\
   run_stdout (process_of [] client_down) =
     ["=== ChromaDB Debug Info ===";
      "[ERROR] ChromaDB connection failed: Connection refused"]) /\
  run_status (process_of [] (client_with [notes; broken])) = 0%Z.
Proof.
  split.
  - apply (proj1 (exit_status_reports_connection (process_of [] client_down))
             client_down refused); reflexivity.
  - apply (proj2 (exit_status_reports_connection
                    (process_of [] (client_with [notes; broken])))).
    intros e H. vm_compute in H. discriminate H.
Defined.

(** ** C3: the preview of a document *)

Lemma list_ascii_of_append (a b : string) :
  list_ascii_of_string (a ++ b) = (list_ascii_of_string a ++ list_ascii_of_string b)%list.
Proof. induction a as [|ch a IH]; simpl; [reflexivity | now rewrite IH]. Qed.

Lemma list_ascii_of_substring (n : nat) (s : string) :
  list_ascii_of_string (substring 0 n s) = firstn n (list_ascii_of_string s).
Proof.
  revert s; induction n as [|n IH]; intros [|ch s]; simpl; try reflexivity.
  now rewrite IH.
Qed.

Lemma length_list_ascii (s : string) :
  String.length s = length (list_ascii_of_string s).
Proof. induction s as [|ch s IH]; simpl; auto. Qed.

(** C3.  A document longer than 100 characters is previewed by its first
    100 characters followed by ["..."]; any other document is previewed in
    full, unchanged; and the preview is what the document's line shows. *)
Theorem preview_truncates_long_documents (doc : string) :
  (100 < String.length doc ->
   preview doc = substring 0 100 doc ++ "..." /\
   list_ascii_of_string (preview doc) =
     (firstn 100 (list_ascii_of_string doc) ++ list_ascii_of_string "...")%list /\
   String.length (preview doc) = 103) /\
  (String.length doc <= 100 -> preview doc = doc) /\
  (forall sample i w,
     exists rest,
       stdout (snd (show_document sample i (Some doc) w)) =
       (stdout w ++ ("    [" ++ str_len i ++ "]: " ++ preview doc)%string :: rest)%list).
Proof.
  split; [| split].
  - intro H. unfold preview.
    destruct (Nat.ltb_spec 100 (String.length doc)) as [_ | Hle]; [| lia].
    split; [reflexivity | split].
    + now rewrite list_ascii_of_append, list_ascii_of_substring.
    + rewrite length_list_ascii, list_ascii_of_append, list_ascii_of_substring.
      rewrite length_list_ascii in H.
      rewrite length_app, length_firstn.
      change (length (list_ascii_of_string "...")) with 3. lia.
  - intro H. unfold preview.
    destruct (Nat.ltb_spec 100 (String.length doc)) as [Hlt | _]; [lia | reflexivity].
  - intros sample i w. rewrite run_show_document.
    exists (metadata_lines sample i). reflexivity.
Qed.

Lemma preview_truncates_long_documents_witness :
  (preview long_doc = substring 0 100 long_doc ++ "..." /\
   list_ascii_of_string (preview long_doc) =
     (firstn 100 (list_ascii_of_string long_doc) ++ list_ascii_of_string "...")%list /\
   String.length (preview long_doc) = 103) /\
  preview "alpha" = "alpha".
Proof.
  split.
  - apply (proj1 (preview_truncates_long_documents long_doc)). simpl. lia.
  - apply (proj1 (proj2 (preview_truncates_long_documents "alpha"))). simpl. lia.
Defined.

(** ** Blocks of the run *)

Lemma added_show_collection (k : nat) (c : Collection) :
  added (show_collection k c) = block (k, c).
Proof. unfold added. now rewrite run_show_collection, world_app_empty_l. Qed.

Lemma shown_block (kc : nat * Collection) :
  shown kc = (collection_header (snd kc) ++ details_lines (snd kc))%list.
Proof. destruct kc as [k c]; unfold shown; now rewrite added_show_collection. Qed.

Lemma called_block (kc : nat * Collection) :
  called kc = details_calls (fst kc) (snd kc).
Proof. destruct kc as [k c]; unfold called; now rewrite added_show_collection. Qed.

Lemma stdout_blocks (cols : list Collection) :
  stdout (blocks cols) = concat (map shown (enumerate cols)).
Proof.
  unfold blocks. rewrite stdout_world_concat, map_map.
  f_equal. apply map_ext. intros [k c]. now rewrite shown_block.
Qed.

Lemma calls_blocks (cols : list Collection) :
  calls (blocks cols) = concat (map called (enumerate cols)).
Proof.
  unfold blocks. rewrite calls_world_concat, map_map.
  f_equal. apply map_ext. intros [k c]. now rewrite called_block.
Qed.

Section Listed.
Variables (p : process) (client : Client) (hb : Z) (cols : list Collection).
Hypothesis connected :
  HttpClient (chromadb_module p) "localhost" 8000%Z = Ok client.
Hypothesis alive : heartbeat client = Ok hb.
Hypothesis listed : list_collections client = Ok cols.

Lemma stdout_listed :
  run_stdout p =
  ([banner; connected_line hb; found_line (length cols)] ++
   concat (map shown (enumerate cols)))%list.
Proof.
  unfold run_stdout. rewrite (main_listed _ connected alive listed); simpl.
  now rewrite stdout_blocks.
Qed.

Lemma calls_listed :
  run_calls p =
  ([connect_op; OpHeartbeat; OpList] ++ concat (map called (enumerate cols)))%list.
Proof.
  unfold run_calls. rewrite (main_listed _ connected alive listed); simpl.
  now rewrite calls_blocks.
Qed.

Lemma status_listed : run_status p = 0%Z.
Proof. unfold run_status. now rewrite (main_listed _ connected alive listed). Qed.
End Listed.

Lemma In_enumerate {A} (xs : list A) (k : nat) (x : A) :
  In (k, x) (enumerate xs) <-> nth_error xs k = Some x.
Proof.
  unfold enumerate. rewrite In_enumerate_from, Nat.sub_0_r.
  split; [tauto | split; [lia | assumption]].
Qed.

Lemma nth_error_enumerate {A} (xs : list A) (k : nat) (x : A) :
  nth_error xs k = Some x -> nth_error (enumerate xs) k = Some (k, x).
Proof.
  intro H. unfold enumerate. now rewrite nth_error_enumerate_from, H.
Qed.

Lemma split_at {A} (l : list A) (k : nat) (x : A) :
  nth_error l k = Some x -> l = (firstn k l ++ x :: skipn (S k) l)%list.
Proof.
  revert k; induction l as [|y l IH]; intros [|k] H; simpl in *; try discriminate.
  - now inversion H.
  - f_equal. now apply IH.
Qed.

Lemma sample_lines_forms (sample : GetResult) (l : list (nat * string)) :
  Forall details_line (flat_map (document_lines sample) l).
Proof.
  induction l as [|[i doc] l IH]; simpl; [constructor |].
  constructor; [apply DlPreview |].
  apply Forall_app; split; [| exact IH].
  unfold metadata_lines; simpl.
  destruct (metadatas sample) as [ms|]; [| constructor].
  destruct (nth_error ms i); repeat constructor.
Qed.

Lemma details_lines_forms (c : Collection) : Forall details_line (details_lines c).
Proof.
  unfold details_lines.
  destruct (count c) as [n|e]; [| repeat constructor].
  constructor; [constructor |].
  destruct (0 <? n)%Z; [| constructor].
  destruct (get c 3%Z sample_include) as [sample|e]; [| repeat constructor].
  constructor; [constructor |].
  destruct (documents sample) as [docs|]; [| repeat constructor].
  apply Forall_app. split; [apply sample_lines_forms |].
  unfold sample_error. destruct (all_strings (slice_to 3 docs)); repeat constructor.
Qed.

Lemma details_line_not_collection (s : string) :
  details_line s -> is_collection_line s = false.
Proof. intros []; reflexivity. Qed.

Lemma prefix_empty (s : string) : prefix "" s = true.
Proof. now destruct s. Qed.

Lemma collection_line_is_collection (c : Collection) :
  is_collection_line (collection_line c) = true.
Proof.
  unfold is_collection_line, collection_line; simpl.
  repeat (destruct (ascii_dec _ _) as [_ | N]; [| now destruct N]).
  apply prefix_empty.
Qed.

Lemma collection_lines_in_block (kc : nat * Collection) :
  length (filter is_collection_line (shown kc)) = 1.
Proof.
  rewrite shown_block. unfold collection_header.
  cbn [app filter]. rewrite collection_line_is_collection.
  change (is_collection_line (id_line (snd kc))) with false.
  change (is_collection_line (collection_metadata_line (snd kc))) with false.
  cbn [length]. f_equal.
  assert (H := details_lines_forms (snd kc)).
  induction H as [|s l Hs _ IH]; [reflexivity |].
  cbn [filter]. now rewrite (details_line_not_collection Hs).
Qed.

Lemma collection_lines_in_blocks (l : list (nat * Collection)) :
  length (filter is_collection_line (concat (map shown l))) = length l.
Proof.
  induction l as [|kc l IH]; [reflexivity |].
  cbn [map concat]. rewrite filter_app, length_app, collection_lines_in_block, IH.
  reflexivity.
Qed.

(** ** C4: one block per collection *)

Lemma blocks_of_collections (cols : list Collection) (i : nat) :
  Forall2 block_of cols (map shown (enumerate_from i cols)).
Proof.
  revert i; induction cols as [|c cols IH]; intro i; simpl; constructor; [| apply IH].
  exists (details_lines c). split.
  - now rewrite shown_block.
  - eapply Forall_impl; [| apply details_lines_forms].
    intros s; apply details_line_not_collection.
Qed.

(** C4.  When [list_collections] returns N collections, the script prints
    the line reporting N and then exactly N collection blocks, one per
    collection in the order returned, each with the name, the ID and the
    metadata of its collection. *)
Theorem one_block_per_collection
    (p : process) (client : Client) (hb : Z) (cols : list Collection) :
  HttpClient (chromadb_module p) "localhost" 8000%Z = Ok client ->
  heartbeat client = Ok hb ->
  list_collections client = Ok cols ->
  exists printed : list (list string),
    run_stdout p =
      (["=== ChromaDB Debug Info ===";
        ("[OK] ChromaDB connection successful: " ++ str_int hb)%string;
        (nl ++ "[INFO] Found " ++ str_len (length cols) ++ " collections:")%string] ++
       concat printed)%list /\
    Forall2 block_of cols printed /\
    length printed = length cols /\
    length (filter is_collection_line (run_stdout p)) = length cols.
Proof.
  intros H1 H2 H3. exists (map shown (enumerate cols)).
  rewrite (stdout_listed _ H1 H2 H3).
  split; [reflexivity | split; [apply blocks_of_collections | split]].
  - unfold enumerate. now rewrite length_map, length_enumerate_from.
  - cbn [app filter].
    change (is_collection_line banner) with false.
    change (is_collection_line (connected_line hb)) with false.
    change (is_collection_line (found_line (length cols))) with false.
    cbv iota. rewrite collection_lines_in_blocks. unfold enumerate.
    apply length_enumerate_from.
Qed.

Lemma one_block_per_collection_witness :
  exists printed : list (list string),
    run_stdout (process_of [] (client_with [notes; broken; vacant])) =
      (["=== ChromaDB Debug Info ===";
        ("[OK] ChromaDB connection successful: " ++ str_int 1700000000)%string;
        (nl ++ "[INFO] Found " ++ str_len 3 ++ " collections:")%string] ++
       concat printed)%list /\
    Forall2 block_of [notes; broken; vacant] printed /\
    length printed = 3 /\
    length (filter is_collection_line
              (run_stdout (process_of [] (client_with [notes; broken; vacant])))) = 3.
Proof.
  apply (@one_block_per_collection
           (process_of [] (client_with [notes; broken; vacant]))
           (client_with [notes; broken; vacant]) 1700000000%Z
           [notes; broken; vacant]); reflexivity.
Defined.

(** ** C2: a failing collection does not stop the loop *)

(** C2.  When [count] or [get] raises for the collection at position [k],
    its block ends with the inline error line carrying the exception's
    text, the blocks of all the other collections are printed around it,
    every later collection has its [count] call made and its block opened,
    and the process exits with status 0. *)
Theorem failing_collection_does_not_stop_the_loop
    (p : process) (client : Client) (hb : Z) (cols : list Collection)
    (k : nat) (c : Collection) (e : exn) :
  HttpClient (chromadb_module p) "localhost" 8000%Z = Ok client ->
  heartbeat client = Ok hb ->
  list_collections client = Ok cols ->
  nth_error cols k = Some c ->
  (count c = Raise e \/
   exists n, count c = Ok n /\ (0 < n)%Z /\ get c 3%Z ["metadatas"; "documents"] = Raise e) ->
  (exists reported,
     (reported = ["  [ERROR] Error getting collection details: " ++ exn_text e] \/
      exists n, reported =
        [count_line n; "  [ERROR] Error getting collection details: " ++ exn_text e]) /\
     run_stdout p =
       ([banner; connected_line hb; found_line (length cols)] ++
        concat (map shown (firstn k (enumerate cols))) ++
        (collection_header c ++ reported) ++
        concat (map shown (skipn (S k) (enumerate cols))))%list) /\
  (forall j c', k < j -> nth_error cols j = Some c' ->
     In (OpCount j) (run_calls p) /\
     In (nl ++ "  Collection: " ++ name c') (run_stdout p)) /\
  run_status p = 0%Z.
Proof.
  intros H1 H2 H3 Hk Hfail. split; [| split].
  - exists (details_lines c). split.
    + unfold details_lines.
      destruct Hfail as [Hc | (n & Hc & Hn & Hg)]; rewrite Hc.
      * now left.
      * right. exists n. apply Z.ltb_lt in Hn. rewrite Hn.
        change sample_include with ["metadatas"; "documents"]. now rewrite Hg.
    + rewrite (stdout_listed _ H1 H2 H3). f_equal.
      rewrite (split_at _ _ (nth_error_enumerate _ _ Hk)) at 1.
      rewrite map_app, concat_app. f_equal.
      cbn [map concat]. now rewrite shown_block.
  - intros j c' _ Hj. apply In_enumerate in Hj. split.
    + rewrite (calls_listed _ H1 H2 H3). apply in_or_app; right.
      apply in_concat. exists (called (j, c')). split; [now apply in_map |].
      rewrite called_block. now left.
    + rewrite (stdout_listed _ H1 H2 H3). apply in_or_app; right.
      apply in_concat. exists (shown (j, c')). split; [now apply in_map |].
      rewrite shown_block. now left.
  - exact (status_listed _ H1 H2 H3).
Qed.

Lemma failing_collection_does_not_stop_the_loop_witness :
  (exists reported,
     (reported = ["  [ERROR] Error getting collection details: boom"] \/
      exists n, reported =
        [count_line n; "  [ERROR] Error getting collection details: boom"]) /\
     run_stdout (process_of [] (client_with [broken; notes; vacant])) =
       ([banner; connected_line 1700000000;
         found_line (length [broken; notes; vacant])] ++
        concat (map shown (firstn 0 (enumerate [broken; notes; vacant]))) ++
        (collection_header broken ++ reported) ++
        concat (map shown (skipn 1 (enumerate [broken; notes; vacant]))))%list) /\
  (forall j c', 0 < j -> nth_error [broken; notes; vacant] j = Some c' ->
     In (OpCount j) (run_calls (process_of [] (client_with [broken; notes; vacant]))) /\
     In (nl ++ "  Collection: " ++ name c')
        (run_stdout (process_of [] (client_with [broken; notes; vacant])))) /\
  run_status (process_of [] (client_with [broken; notes; vacant])) = 0%Z.
Proof.
  apply (@failing_collection_does_not_stop_the_loop
           (process_of [] (client_with [broken; notes; vacant]))
           (client_with [broken; notes; vacant]) 1700000000%Z
           [broken; notes; vacant] 0 broken boom);
    try reflexivity.
  left; reflexivity.
Defined.

(** ** C8: no sample for an empty collection *)

Lemma get_only_when_documents (k j : nat) (c : Collection) (l : Z) (inc : list string) :
  In (OpGet j l inc) (details_calls k c) ->
  j = k /\ l = 3%Z /\ inc = ["metadatas"; "documents"] /\
  exists n, count c = Ok n /\ (0 < n)%Z.
Proof.
  unfold details_calls. intros [H | H]; [discriminate |].
  destruct (count c) as [n|e]; [| destruct H].
  destruct (Z.ltb_spec 0 n) as [Hn | _]; [| destruct H].
  destruct H as [H | []]. inversion H; subst.
  repeat split; try reflexivity. now exists n.
Qed.

Lemma header_only_when_documents (c : Collection) :
  In sample_header (collection_header c ++ details_lines c) ->
  exists n, count c = Ok n /\ (0 < n)%Z.
Proof.
  unfold collection_header, details_lines. cbn [app].
  intros [H | [H | [H | H]]]; try discriminate.
  destruct (count c) as [n|e]; [| destruct H as [H | []]; discriminate].
  destruct H as [H | H]; [discriminate |].
  destruct (Z.ltb_spec 0 n) as [Hn | _]; [| destruct H].
  now exists n.
Qed.

(** C8.  A collection whose [count] is 0 gets its three header lines and
    its count line and nothing else: no [get] call and no "Sample
    documents:" line.  A [get] call or a sample section for a collection
    means its count was strictly positive. *)
Theorem no_sample_for_empty_collection (k : nat) (c : Collection) :
  (count c = Ok 0%Z ->
   (forall w,
      show_collection k c w =
      (Returned tt,
       World (stdout w ++
              [(nl ++ "  Collection: " ++ name c)%string;
               ("  ID: " ++ id c)%string;
               ("  Metadata: " ++ metadata c)%string;
               "  Document count: 0"])
             (calls w ++ [OpCount k]))) /\
   (forall p client hb cols,
      HttpClient (chromadb_module p) "localhost" 8000%Z = Ok client ->
      heartbeat client = Ok hb ->
      list_collections client = Ok cols ->
      nth_error cols k = Some c ->
      forall l inc, ~ In (OpGet k l inc) (run_calls p))) /\
  (forall j l inc,
     In (OpGet j l inc) (called (k, c)) -> exists n, count c = Ok n /\ (0 < n)%Z) /\
  (In "  Sample documents:" (shown (k, c)) -> exists n, count c = Ok n /\ (0 < n)%Z).
Proof.
  split; [| split].
  - intro H0. split.
    + intro w. rewrite run_show_collection.
      unfold block, details_lines, details_calls, world_app; simpl. now rewrite H0.
    + intros p client hb cols H1 H2 H3 Hk l inc Hin.
      rewrite (calls_listed _ H1 H2 H3) in Hin.
      apply in_app_or in Hin. destruct Hin as [Hin | Hin].
      { simpl in Hin. unfold connect_op in Hin.
        destruct Hin as [H | [H | [H | []]]]; discriminate. }
      apply in_concat in Hin. destruct Hin as (b & Hb & Hin).
      apply in_map_iff in Hb. destruct Hb as ([j c'] & <- & Hjc).
      rewrite called_block in Hin. cbn [fst snd] in Hin.
      destruct (@get_only_when_documents _ _ _ _ _ Hin) as (Hj & _ & _ & n & Hc & Hn).
      apply In_enumerate in Hjc. subst j.
      rewrite Hk in Hjc. inversion Hjc; subst. rewrite H0 in Hc.
      inversion Hc; subst. lia.
  - intros j l inc Hin. rewrite called_block in Hin.
    now destruct (@get_only_when_documents _ _ _ _ _ Hin) as (_ & _ & _ & H).
  - intro Hin. rewrite shown_block in Hin.
    now apply header_only_when_documents.
Qed.

Lemma no_sample_for_empty_collection_witness :
  (forall w,
     show_collection 2 vacant w =
     (Returned tt,
      World (stdout w ++
             [(nl ++ "  Collection: vacant")%string;
              "  ID: c-3";
              "  Metadata: {'owner': 'qa'}";
              "  Document count: 0"])
            (calls w ++ [OpCount 2]))) /\
  (forall l inc,
     ~ In (OpGet 2 l inc)
          (run_calls (process_of [] (client_with [notes; broken; vacant])))).
Proof.
  destruct (proj1 (no_sample_for_empty_collection 2 vacant) eq_refl) as [Hw Hrun].
  split.
  - exact Hw.
  - apply (Hrun (process_of [] (client_with [notes; broken; vacant]))
             (client_with [notes; broken; vacant]) 1700000000%Z
             [notes; broken; vacant]); reflexivity.
Defined.

(** ** C9: at most three previews *)

Lemma preview_line_is_preview (i : nat) (doc : string) :
  is_preview_line (preview_line i doc) = true.
Proof.
  unfold is_preview_line, preview_line; simpl.
  repeat (destruct (ascii_dec _ _) as [_ | N]; [| now destruct N]).
  apply prefix_empty.
Qed.

Lemma previews_of_documents (sample : GetResult) (l : list (nat * string)) :
  filter is_preview_line (flat_map (document_lines sample) l) =
  map (fun ix => preview_line (fst ix) (snd ix)) l.
Proof.
  induction l as [|[i doc] l IH]; [reflexivity |].
  cbn [flat_map map]. unfold document_lines at 1. cbn [app fst snd filter].
  rewrite preview_line_is_preview, filter_app, IH. f_equal.
  unfold metadata_lines.
  destruct (metadatas sample) as [ms|]; [| reflexivity].
  destruct (nth_error ms i); reflexivity.
Qed.

Lemma leading_strings_of_strings (ds : list string) :
  leading_strings (map Some ds) = ds.
Proof. induction ds as [|d ds IH]; simpl; [reflexivity | now rewrite IH]. Qed.

Lemma all_strings_iff (docs : list (option string)) :
  all_strings docs = true <-> ~ In None docs.
Proof.
  induction docs as [|[d|] docs IH].
  - split; [intros _ [] | reflexivity].
  - change (all_strings (Some d :: docs)) with (all_strings docs). rewrite IH.
    split.
    + intros H [H' | H']; [discriminate H' | now apply H].
    + intros H H'. apply H. now right.
  - change (all_strings (None :: docs)) with false.
    split; [discriminate | intro H; destruct H; now left].
Qed.

Lemma none_among (docs : list (option string)) :
  all_strings docs = false -> In None docs.
Proof.
  induction docs as [|[d|] docs IH]; intro H.
  - discriminate H.
  - right. now apply IH.
  - now left.
Qed.

Lemma length_leading_strings (docs : list (option string)) :
  length (leading_strings docs) <= length docs /\
  (all_strings docs = true -> length (leading_strings docs) = length docs) /\
  (all_strings docs = false -> length (leading_strings docs) < length docs).
Proof.
  induction docs as [|[d|] docs (IH1 & IH2 & IH3)].
  - repeat split; simpl; auto; discriminate.
  - change (all_strings (Some d :: docs)) with (all_strings docs).
    cbn [leading_strings length].
    split; [lia | split; intro H; [rewrite (IH2 H); reflexivity | specialize (IH3 H); lia]].
  - cbn [leading_strings length]. split; [lia | split; [discriminate | lia]].
Qed.

Lemma sample_error_not_preview (docs : list (option string)) :
  filter is_preview_line (sample_error docs) = [].
Proof. unfold sample_error. now destruct (all_strings (slice_to 3 docs)). Qed.

Lemma previews_of_block (c : Collection) :
  filter is_preview_line (collection_header c ++ details_lines c) =
  match count c with
  | Ok n =>
      if (0 <? n)%Z then
        match get c 3%Z sample_include with
        | Ok sample =>
            match documents sample with
            | Some docs =>
                map (fun ix => preview_line (fst ix) (snd ix))
                    (enumerate (leading_strings (slice_to 3 docs)))
            | None => []
            end
        | Raise _ => []
        end
      else []
  | Raise _ => []
  end.
Proof.
  unfold collection_header, details_lines. cbn [app filter].
  change (is_preview_line (collection_line c)) with false.
  change (is_preview_line (id_line c)) with false.
  change (is_preview_line (collection_metadata_line c)) with false.
  cbv iota.
  destruct (count c) as [n|e]; [| reflexivity].
  cbn [filter]. change (is_preview_line (count_line n)) with false. cbv iota.
  destruct (0 <? n)%Z; [| reflexivity].
  destruct (get c 3%Z sample_include) as [sample|e]; [| reflexivity].
  cbn [filter]. change (is_preview_line sample_header) with false. cbv iota.
  destruct (documents sample) as [docs|]; [| reflexivity].
  rewrite filter_app, sample_error_not_preview, app_nil_r.
  apply previews_of_documents.
Qed.

(** C9.  Whatever the service answers, a collection block has at most 3
    preview lines; every [get] the block makes asks for [limit=3]; and
    when [get] returns documents, however many, only the first 3 are
    looked at: the previews are those of the entries among the first 3
    that come before the first [None] entry, numbered from 0, and when
    the first 3 are all strings there is one preview for each of them. *)
Theorem at_most_three_previews (k : nat) (c : Collection) :
  length (filter is_preview_line (shown (k, c))) <= 3 /\
  (forall j l inc,
     In (OpGet j l inc) (called (k, c)) ->
     j = k /\ l = 3%Z /\ inc = ["metadatas"; "documents"]) /\
  (forall n sample docs,
     count c = Ok n -> (0 < n)%Z ->
     get c 3%Z ["metadatas"; "documents"] = Ok sample ->
     documents sample = Some docs ->
     called (k, c) = [OpCount k; OpGet k 3 ["metadatas"; "documents"]] /\
     filter is_preview_line (shown (k, c)) =
       map (fun ix => ("    [" ++ str_len (fst ix) ++ "]: " ++ preview (snd ix))%string)
           (enumerate (leading_strings (firstn 3 docs))) /\
     length (filter is_preview_line (shown (k, c))) <= Nat.min 3 (length docs) /\
     (forall ds,
        firstn 3 docs = map Some ds ->
        filter is_preview_line (shown (k, c)) =
          map (fun ix => ("    [" ++ str_len (fst ix) ++ "]: " ++ preview (snd ix))%string)
              (enumerate ds) /\
        length (filter is_preview_line (shown (k, c))) = Nat.min 3 (length docs))).
Proof.
  assert (Hlen : forall docs : list (option string),
             length (map (fun ix => preview_line (fst ix) (snd ix))
                         (enumerate (leading_strings (slice_to 3 docs)))) =
             length (leading_strings (firstn 3 docs))).
  { intro docs. unfold enumerate, slice_to.
    now rewrite length_map, length_enumerate_from. }
  assert (Hle : forall docs : list (option string),
             length (leading_strings (firstn 3 docs)) <= Nat.min 3 (length docs)).
  { intro docs. rewrite <- length_firstn. apply length_leading_strings. }
  split; [| split].
  - rewrite shown_block, previews_of_block. cbn [snd].
    destruct (count c) as [n|e]; [| simpl; lia].
    destruct (0 <? n)%Z; [| simpl; lia].
    destruct (get c 3%Z sample_include) as [sample|e]; [| simpl; lia].
    destruct (documents sample) as [docs|]; [| simpl; lia].
    rewrite Hlen. specialize (Hle docs). lia.
  - intros j l inc Hin. rewrite called_block in Hin.
    destruct (@get_only_when_documents _ _ _ _ _ Hin) as (Hj & Hl & Hi & _).
    now repeat split.
  - intros n sample docs Hc Hn Hg Hd. apply Z.ltb_lt in Hn.
    change ["metadatas"; "documents"] with sample_include in Hg.
    assert (Hp : filter is_preview_line (shown (k, c)) =
                 map (fun ix => preview_line (fst ix) (snd ix))
                     (enumerate (leading_strings (slice_to 3 docs)))).
    { rewrite shown_block, previews_of_block. cbn [snd]. now rewrite Hc, Hn, Hg, Hd. }
    split; [| split; [| split]].
    + rewrite called_block. unfold details_calls; cbn [fst snd].
      now rewrite Hc, Hn.
    + exact Hp.
    + rewrite Hp, Hlen. apply Hle.
    + intros ds Hds. rewrite Hp, Hlen. unfold slice_to. rewrite Hds.
      rewrite leading_strings_of_strings. split; [reflexivity |].
      rewrite <- length_firstn, Hds. now rewrite length_map.
Qed.

Lemma at_most_three_previews_witness :
  called (0, notes) = [OpCount 0; OpGet 0 3 ["metadatas"; "documents"]] /\
  filter is_preview_line (shown (0, notes)) =
    map (fun ix => ("    [" ++ str_len (fst ix) ++ "]: " ++ preview (snd ix))%string)
        (enumerate ["alpha"; long_doc; "gamma"]) /\
  length (filter is_preview_line (shown (0, notes))) = Nat.min 3 5.
Proof.
  destruct (proj2 (proj2 (at_most_three_previews 0 notes)) 5%Z
              {| documents :=
                   Some [Some "alpha"; Some long_doc; Some "gamma"; Some "delta";
                         Some "epsilon"];
                 metadatas := Some ["{'page': 1}"] |}
              [Some "alpha"; Some long_doc; Some "gamma"; Some "delta"; Some "epsilon"]
              eq_refl eq_refl eq_refl eq_refl) as (Hcalls & _ & _ & Hall).
  destruct (Hall ["alpha"; long_doc; "gamma"] eq_refl) as [Hprev Hlen].
  split; [exact Hcalls | split; [exact Hprev | exact Hlen]].
Defined.

(** ** C10: metadata is read within bounds *)

(** C10.  Showing a document that is a string never raises, so the
    metadata list is never indexed out of range: the metadata line of the
    [i]-th previewed document is printed exactly when the metadata list is
    there, is not empty and is longer than [i], and it is then the [i]-th
    entry.  A [None] document raises the [TypeError] of [len] before
    anything is printed or indexed.  The sample loop as a whole returns,
    or raises one of the two [TypeError]s (a missing document list, a
    [None] entry among the first three); it never raises [IndexError]. *)
Theorem metadata_access_is_in_bounds (sample : GetResult) :
  (forall i doc w,
     fst (show_document sample i (Some doc) w) = Returned tt /\
     exists lines,
       snd (show_document sample i (Some doc) w) =
         World (stdout w ++ preview_line i doc :: lines) (calls w) /\
       ((exists ms m,
           metadatas sample = Some ms /\ ms <> [] /\ i < length ms /\
           nth_error ms i = Some m /\
           lines = [("         Metadata: " ++ m)%string]) \/
        (lines = [] /\
         (metadatas sample = None \/
          metadatas sample = Some [] \/
          exists ms, metadatas sample = Some ms /\ length ms <= i)))) /\
  (forall i w, show_document sample i None w = (Raised no_len, w)) /\
  (forall w,
     fst (show_sample sample w) <> Raised index_error /\
     ((exists docs,
         documents sample = Some docs /\ ~ In None (firstn 3 docs) /\
         fst (show_sample sample w) = Returned tt) \/
      (documents sample = None /\
       fst (show_sample sample w) = Raised not_subscriptable) \/
      (exists docs,
         documents sample = Some docs /\ In None (firstn 3 docs) /\
         fst (show_sample sample w) = Raised no_len))).
Proof.
  split; [| split].
  - intros i doc w. rewrite run_show_document. split; [reflexivity |].
    exists (metadata_lines sample i). split.
    { unfold world_app, document_lines; simpl. now rewrite app_nil_r. }
    unfold metadata_lines.
    destruct (metadatas sample) as [ms|]; [| right; auto].
    destruct (nth_error ms i) as [m|] eqn:E.
    + left. exists ms, m.
      assert (Hi : i < length ms) by (apply nth_error_Some; now rewrite E).
      split; [reflexivity | split; [| split; [exact Hi | split; [exact E | reflexivity]]]].
      intros ->. simpl in Hi. lia.
    + right. split; [reflexivity |]. right; right. exists ms.
      split; [reflexivity |]. now apply nth_error_None.
  - intros i w. apply run_show_document_none.
  - intro w. destruct (documents sample) as [docs|] eqn:D.
    + rewrite (run_show_sample _ _ D). unfold slice_to.
      destruct (all_strings (firstn 3 docs)) eqn:A; cbn [fst].
      * split; [discriminate |]. left. exists docs.
        split; [reflexivity | split; [now apply all_strings_iff | reflexivity]].
      * split; [discriminate |]. right; right. exists docs.
        split; [reflexivity | split; [| reflexivity]].
        now apply none_among.
    + rewrite (run_show_sample_none _ _ D). split; [discriminate |].
      right; left. now split.
Qed.

(** ** The order of the calls *)

Lemma run_cases (p : process) : run_case p.
Proof.
  destruct (HttpClient (chromadb_module p) "localhost" 8000%Z) as [client|e] eqn:H1.
  2: { apply (NoClient _ H1). unfold run_calls. now rewrite (main_connect_raises _ H1). }
  destruct (heartbeat client) as [hb|e] eqn:H2.
  2: { apply (NoHeartbeat _ H1 H2). unfold run_calls.
       now rewrite (main_heartbeat_raises _ H1 H2). }
  destruct (list_collections client) as [cols|e] eqn:H3.
  2: { apply (NoListing _ H1 H2 H3). unfold run_calls.
       now rewrite (main_list_raises _ H1 H2 H3). }
  apply (Listed _ H1 H2 H3). apply (calls_listed _ H1 H2 H3).
Qed.


Lemma details_calls_forms (k : nat) (c : Collection) (o : op) :
  In o (details_calls k c) ->
  o = OpCount k \/
  (o = get_op k /\ exists n, count c = Ok n /\ (0 < n)%Z).
Proof.
  intros [<- | H]; [now left |]. right.
  destruct (count c) as [n|e]; [| destruct H].
  destruct (Z.ltb_spec 0 n) as [Hn | _]; [| destruct H].
  destruct H as [<- | []]. split; [reflexivity | now exists n].
Qed.

Lemma StronglySorted_app {A} (R : A -> A -> Prop) (l1 l2 : list A) :
  StronglySorted R l1 -> StronglySorted R l2 ->
  (forall a b, In a l1 -> In b l2 -> R a b) ->
  StronglySorted R (l1 ++ l2).
Proof.
  intros H1 H2 H. induction H1 as [|a l1 Hs IH Ha]; simpl; [exact H2 |].
  constructor.
  - apply IH. intros x y Hx Hy. apply H; [now right | exact Hy].
  - apply Forall_app. split; [exact Ha |].
    apply Forall_forall. intros y Hy. apply H; [now left | exact Hy].
Qed.

Lemma blocks_in_fixed_order (cols : list Collection) (i : nat) :
  in_fixed_order (concat (map called (enumerate_from i cols))) /\
  Forall (fun o => 3 + 2 * i <= rank o) (concat (map called (enumerate_from i cols))).
Proof.
  revert i; induction cols as [|c cols IH]; intro i; simpl.
  - split; constructor.
  - destruct (IH (S i)) as [Hs Hr]. rewrite called_block; cbn [fst snd].
    assert (Hhere : forall o, In o (details_calls i c) ->
                              3 + 2 * i <= rank o <= 4 + 2 * i).
    { intros o Ho. destruct (details_calls_forms Ho) as [-> | [-> _]]; simpl; lia. }
    split.
    + apply StronglySorted_app; [| exact Hs |].
      * unfold details_calls. destruct (count c) as [n|e].
        -- destruct (0 <? n)%Z; repeat constructor;
             try (unfold op_before; simpl; lia).
        -- repeat constructor.
      * intros a b Ha Hb. unfold op_before.
        apply Hhere in Ha. rewrite Forall_forall in Hr. apply Hr in Hb. lia.
    + apply Forall_app. split.
      * apply Forall_forall. intros o Ho. apply Hhere in Ho. lia.
      * eapply Forall_impl; [| exact Hr]. simpl. intros o Ho. lia.
Qed.

Lemma calls_in_fixed_order (p : process) : in_fixed_order (run_calls p).
Proof.
  destruct (run_cases p) as [e _ -> | client e _ _ -> | client hb e _ _ _ ->
                            | client hb cols _ _ _ ->].
  - repeat constructor.
  - repeat constructor; try (unfold op_before; simpl; lia).
  - repeat constructor; try (unfold op_before; simpl; lia).
  - destruct (blocks_in_fixed_order cols 0) as [Hs Hr].
    apply StronglySorted_app; [| exact Hs |].
    + repeat constructor; try (unfold op_before; simpl; lia).
    + intros a b Ha Hb. rewrite Forall_forall in Hr. apply Hr in Hb.
      unfold op_before. simpl in Ha.
      destruct Ha as [<- | [<- | [<- | []]]]; simpl; lia.
Qed.

(** ** C5: the chain of calls *)





(** ** C6: one connection, no retries *)

Lemma once_per_rank (l : list op) (r : nat) :
  in_fixed_order l -> occurrences (fun o => Nat.eqb (rank o) r) l <= 1.
Proof.
  unfold occurrences. induction 1 as [|a l Hs IH Ha]; simpl; [lia |].
  destruct (Nat.eqb_spec (rank a) r) as [E | _]; [| exact IH].
  replace (filter (fun o => Nat.eqb (rank o) r) l) with (@nil op); [simpl; lia |].
  symmetry. clear IH Hs. induction Ha as [|b l Hb _ IHl]; [reflexivity |].
  simpl. unfold op_before in Hb.
  destruct (Nat.eqb_spec (rank b) r) as [E' | _]; [lia | exact IHl].
Qed.

Lemma occurrences_le (f g : op -> bool) (l : list op) :
  (forall o, f o = true -> g o = true) ->
  occurrences f l <= occurrences g l.
Proof.
  intro H. unfold occurrences. induction l as [|a l IH]; simpl; [lia |].
  destruct (f a) eqn:E.
  - rewrite (H a E). simpl. lia.
  - destruct (g a); simpl; lia.
Qed.

Lemma once_per_kind (kind : op -> bool) (r : nat) (l : list op) :
  (forall o, kind o = true -> rank o = r) ->
  in_fixed_order l -> occurrences kind l <= 1.
Proof.
  intros H Hs. etransitivity; [| apply (once_per_rank r Hs)].
  apply occurrences_le. intros o Ho. apply Nat.eqb_eq. now apply H.
Qed.

(** C6.  Every run constructs the client exactly once, calls [heartbeat]
    and [list_collections] at most once each, and makes at most one
    [count] and at most one [get] call per collection, whatever the
    service answers. *)
Theorem one_connection_and_no_retry (p : process) :
  occurrences is_connect (run_calls p) = 1 /\
  occurrences is_heartbeat (run_calls p) <= 1 /\
  occurrences is_list (run_calls p) <= 1 /\
  (forall k,
     occurrences (is_count k) (run_calls p) <= 1 /\
     occurrences (is_get k) (run_calls p) <= 1).
Proof.
  assert (Hs := calls_in_fixed_order p).
  split; [| split; [| split; [| intro k; split]]].
  - assert (Hle : occurrences is_connect (run_calls p) <= 1).
    { apply (@once_per_kind is_connect 0); [| exact Hs]. intros []; simpl; congruence. }
    assert (Hge : 1 <= occurrences is_connect (run_calls p)).
    { destruct (run_cases p) as [e _ -> | client e _ _ -> | client hb e _ _ _ ->
                                | client hb cols _ _ _ ->];
        unfold occurrences; simpl; lia. }
    lia.
  - apply (@once_per_kind is_heartbeat 1); [| exact Hs]. intros []; simpl; congruence.
  - apply (@once_per_kind is_list 2); [| exact Hs]. intros []; simpl; congruence.
  - apply (@once_per_kind (is_count k) (3 + 2 * k)); [| exact Hs].
    intros []; simpl; try congruence. intro H. apply Nat.eqb_eq in H. lia.
  - apply (@once_per_kind (is_get k) (4 + 2 * k)); [| exact Hs].
    intros []; simpl; try congruence. intro H. apply Nat.eqb_eq in H. lia.
Qed.


(** * Further properties of the script *)

(** ** Exit status *)

(** X1.  The exit status is 0 or 1, and it is 0 exactly when the client
    constructor, the heartbeat and the listing all return: nothing that
    happens inside the loop over the collections changes it. *)
Theorem exit_status_is_decided_before_the_loop (p : process) :
  (run_status p = 0%Z \/ run_status p = 1%Z) /\
  (run_status p = 0%Z <->
   exists client hb cols,
     HttpClient (chromadb_module p) "localhost" 8000%Z = Ok client /\
     heartbeat client = Ok hb /\
     list_collections client = Ok cols) /\
  (run_status p = 1%Z <->
   (exists e, HttpClient (chromadb_module p) "localhost" 8000%Z = Raise e) \/
   (exists client,
      HttpClient (chromadb_module p) "localhost" 8000%Z = Ok client /\
      ((exists e, heartbeat client = Raise e) \/
       (exists e, list_collections client = Raise e)))).
Proof.
  unfold run_status.
  destruct (HttpClient (chromadb_module p) "localhost" 8000%Z) as [client|e] eqn:H1.
  2: { rewrite (main_connect_raises _ H1); simpl.
       split; [now right |]. split; split.
       - discriminate.
       - intros (client & hb & cols & H & _). discriminate H.
       - intros _. left. now exists e.
       - reflexivity. }
  destruct (heartbeat client) as [hb|e] eqn:H2.
  2: { rewrite (main_heartbeat_raises _ H1 H2); simpl.
       split; [now right |]. split; split.
       - discriminate.
       - intros (client' & hb & cols & H & H' & _).
         inversion H; subst client'. rewrite H2 in H'. discriminate H'.
       - intros _. right. exists client. split; [reflexivity |]. left. now exists e.
       - reflexivity. }
  destruct (list_collections client) as [cols|e] eqn:H3.
  2: { rewrite (main_list_raises _ H1 H2 H3); simpl.
       split; [now right |]. split; split.
       - discriminate.
       - intros (client' & hb' & cols & H & _ & H').
         inversion H; subst client'. rewrite H3 in H'. discriminate H'.
       - intros _. right. exists client. split; [reflexivity |]. right. now exists e.
       - reflexivity. }
  rewrite (main_listed _ H1 H2 H3); simpl.
  split; [now left |]. split; split.
  - intros _. exists client, hb, cols. now repeat split.
  - reflexivity.
  - discriminate.
  - intros [[e H] | (client' & H & [[e H'] | [e H']])]; try discriminate H.
    + inversion H; subst client'. rewrite H2 in H'. discriminate H'.
    + inversion H; subst client'. rewrite H3 in H'. discriminate H'.
Qed.

(** X2.  When the client constructor raises, the run is the banner, the
    connection error with the exception's text, exit status 1, and the
    constructor is the only call made. *)
Theorem constructor_failure_ends_the_run (p : process) (e : exn) :
  HttpClient (chromadb_module p) "localhost" 8000%Z = Raise e ->
  run_stdout p =
    ["=== ChromaDB Debug Info ===";
     "[ERROR] ChromaDB connection failed: " ++ exn_text e] /\
  run_calls p = [OpConnect "localhost" 8000] /\
  run_status p = 1%Z.
Proof.
  intro H. unfold run_stdout, run_calls, run_status.
  now rewrite (main_connect_raises _ H).
Qed.

Lemma constructor_failure_ends_the_run_witness :
  run_stdout process_refused =
    ["=== ChromaDB Debug Info ===";
     "[ERROR] ChromaDB connection failed: Connection refused"] /\
  run_calls process_refused = [OpConnect "localhost" 8000] /\
  run_status process_refused = 1%Z.
Proof.
  apply (@constructor_failure_ends_the_run process_refused refused). reflexivity.
Defined.

(** X3.  When the listing raises after a good heartbeat, the success line
    of the heartbeat is already printed, the failure is still reported as
    a connection failure, and the process exits with status 1 without any
    per-collection call. *)
Theorem listing_failure_is_a_connection_failure
    (p : process) (client : Client) (hb : Z) (e : exn) :
  HttpClient (chromadb_module p) "localhost" 8000%Z = Ok client ->
  heartbeat client = Ok hb ->
  list_collections client = Raise e ->
  run_stdout p =
    ["=== ChromaDB Debug Info ===";
     "[OK] ChromaDB connection successful: " ++ str_int hb;
     "[ERROR] ChromaDB connection failed: " ++ exn_text e] /\
  run_calls p = [OpConnect "localhost" 8000; OpHeartbeat; OpList] /\
  run_status p = 1%Z.
Proof.
  intros H1 H2 H3. unfold run_stdout, run_calls, run_status.
  now rewrite (main_list_raises _ H1 H2 H3).
Qed.

Lemma listing_failure_is_a_connection_failure_witness :
  run_stdout (process_of [] client_unlisted) =
    ["=== ChromaDB Debug Info ===";
     "[OK] ChromaDB connection successful: 1700000000";
     "[ERROR] ChromaDB connection failed: boom"] /\
  run_calls (process_of [] client_unlisted) =
    [OpConnect "localhost" 8000; OpHeartbeat; OpList] /\
  run_status (process_of [] client_unlisted) = 1%Z.
Proof.
  apply (@listing_failure_is_a_connection_failure
           (process_of [] client_unlisted) client_unlisted 1700000000%Z boom);
    reflexivity.
Defined.

(** ** Failed runs and good runs do not mix *)

Lemma details_line_not_connection_error (s : string) :
  details_line s -> is_connection_error_line s = false.
Proof. intros []; reflexivity. Qed.

Lemma no_connection_error_in_block (kc : nat * Collection) :
  filter is_connection_error_line (shown kc) = [].
Proof.
  rewrite shown_block. unfold collection_header. cbn [app filter].
  change (is_connection_error_line (collection_line (snd kc))) with false.
  change (is_connection_error_line (id_line (snd kc))) with false.
  change (is_connection_error_line (collection_metadata_line (snd kc))) with false.
  cbv iota.
  assert (H := details_lines_forms (snd kc)).
  induction H as [|s l Hs _ IH]; [reflexivity |].
  cbn [filter]. now rewrite (details_line_not_connection_error Hs).
Qed.

Lemma no_connection_error_in_blocks (l : list (nat * Collection)) :
  filter is_connection_error_line (concat (map shown l)) = [].
Proof.
  induction l as [|kc l IH]; [reflexivity |].
  cbn [map concat]. now rewrite filter_app, no_connection_error_in_block, IH.
Qed.

(** X4.  A run that exits with status 1 ends with the connection error
    line, has printed no collection block and has made no per-collection
    call; a run that exits with status 0 has printed no connection error
    line. *)
Theorem failure_and_blocks_exclude_each_other (p : process) :
  (run_status p = 1%Z ->
   (exists e,
      last (run_stdout p) "" = ("[ERROR] ChromaDB connection failed: " ++ exn_text e)%string) /\
   filter is_collection_line (run_stdout p) = [] /\
   filter per_collection (run_calls p) = []) /\
  (run_status p = 0%Z -> filter is_connection_error_line (run_stdout p) = []).
Proof.
  unfold run_status, run_stdout, run_calls.
  destruct (HttpClient (chromadb_module p) "localhost" 8000%Z) as [client|e] eqn:H1.
  2: { rewrite (main_connect_raises _ H1); simpl.
       split; [intros _ | discriminate]. split; [now exists e | now split]. }
  destruct (heartbeat client) as [hb|e] eqn:H2.
  2: { rewrite (main_heartbeat_raises _ H1 H2); simpl.
       split; [intros _ | discriminate]. split; [now exists e | now split]. }
  destruct (list_collections client) as [cols|e] eqn:H3.
  2: { rewrite (main_list_raises _ H1 H2 H3); simpl.
       split; [intros _ | discriminate]. split; [now exists e | now split]. }
  rewrite (main_listed _ H1 H2 H3).
  split; [discriminate | intros _].
  cbn [snd world_app stdout app]. rewrite stdout_blocks.
  cbn [filter].
  change (is_connection_error_line banner) with false.
  change (is_connection_error_line (connected_line hb)) with false.
  change (is_connection_error_line (found_line (length cols))) with false.
  cbv iota. apply no_connection_error_in_blocks.
Qed.

Lemma failure_and_blocks_exclude_each_other_witness :
  ((exists e,
      last (run_stdout (process_of [] client_unlisted)) "" =
      ("[ERROR] ChromaDB connection failed: " ++ exn_text e)%string) /\
   filter is_collection_line (run_stdout (process_of [] client_unlisted)) = [] /\
   filter per_collection (run_calls (process_of [] client_unlisted)) = []) /\
  filter is_connection_error_line
    (run_stdout (process_of [] (client_with [notes; broken; unreadable]))) = [].
Proof.
  split.
  - apply (proj1 (failure_and_blocks_exclude_each_other (process_of [] client_unlisted))).
    reflexivity.
  - apply (proj2 (failure_and_blocks_exclude_each_other
                    (process_of [] (client_with [notes; broken; unreadable])))).
    reflexivity.
Defined.

(** ** The size of the output *)

Lemma length_sample_lines (sample : GetResult) (l : list (nat * string)) :
  length (flat_map (document_lines sample) l) <= 2 * length l.
Proof.
  induction l as [|[i doc] l IH]; simpl; [lia |].
  rewrite length_app. unfold metadata_lines.
  destruct (metadatas sample) as [ms|]; [| simpl; lia].
  destruct (nth_error ms i); simpl; lia.
Qed.

Lemma length_details_lines (c : Collection) : 1 <= length (details_lines c) <= 8.
Proof.
  unfold details_lines.
  destruct (count c) as [n|e]; [| simpl; lia].
  destruct (0 <? n)%Z; [| simpl; lia].
  destruct (get c 3%Z sample_include) as [sample|e]; [| simpl; lia].
  destruct (documents sample) as [docs|]; [| simpl; lia].
  cbn [length]. rewrite length_app. unfold sample_lines, sample_error.
  assert (H := length_sample_lines sample
                 (enumerate (leading_strings (slice_to 3 docs)))).
  unfold enumerate, slice_to in *. rewrite length_enumerate_from in H.
  destruct (length_leading_strings (firstn 3 docs)) as (Hle & _ & Hlt).
  rewrite length_firstn in Hle, Hlt.
  destruct (all_strings (firstn 3 docs)); cbn [length]; [lia |].
  specialize (Hlt eq_refl). lia.
Qed.

Lemma length_details_calls (k : nat) (c : Collection) :
  1 <= length (details_calls k c) <= 2.
Proof.
  unfold details_calls. destruct (count c) as [n|e]; [| simpl; lia].
  destruct (0 <? n)%Z; simpl; lia.
Qed.

Lemma size_of_block (k : nat) (c : Collection) :
  4 <= length (shown (k, c)) <= 11 /\ 1 <= length (called (k, c)) <= 2.
Proof.
  split.
  - rewrite shown_block, length_app. cbn [snd collection_header length].
    assert (H := length_details_lines c). lia.
  - rewrite called_block. apply length_details_calls.
Qed.

(** X5.  Whatever the service answers for a collection, the loop body
    returns (it neither raises nor leaves the process), prints between 4
    and 11 lines and makes one or two calls. *)
Theorem collection_block_is_bounded (k : nat) (c : Collection) :
  (forall w, fst (show_collection k c w) = Returned tt) /\
  4 <= length (shown (k, c)) <= 11 /\
  1 <= length (called (k, c)) <= 2.
Proof.
  split; [| apply size_of_block].
  intro w. now rewrite run_show_collection.
Qed.

Lemma length_blocks (l : list (nat * Collection)) :
  4 * length l <= length (concat (map shown l)) <= 11 * length l /\
  length l <= length (concat (map called l)) <= 2 * length l.
Proof.
  induction l as [|[k c] l IH]; [simpl; lia |].
  cbn [map concat]. rewrite !length_app.
  destruct (size_of_block k c) as [Hs Hc].
  cbn [length]. lia.
Qed.

(** X6.  A run that lists N collections prints between 3 + 4N and 3 + 11N
    lines and makes between 3 + N and 3 + 2N calls, however many documents
    the collections hold. *)
Theorem output_is_linear_in_the_collections
    (p : process) (client : Client) (hb : Z) (cols : list Collection) :
  HttpClient (chromadb_module p) "localhost" 8000%Z = Ok client ->
  heartbeat client = Ok hb ->
  list_collections client = Ok cols ->
  3 + 4 * length cols <= length (run_stdout p) <= 3 + 11 * length cols /\
  3 + length cols <= length (run_calls p) <= 3 + 2 * length cols.
Proof.
  intros H1 H2 H3.
  rewrite (stdout_listed _ H1 H2 H3), (calls_listed _ H1 H2 H3), !length_app.
  assert (H := length_blocks (enumerate cols)).
  unfold enumerate in *. rewrite length_enumerate_from in H.
  cbn [length]. lia.
Qed.

Lemma output_is_linear_in_the_collections_witness :
  3 + 4 * length [notes; broken; vacant; unreadable] <=
    length (run_stdout (process_of [] (client_with [notes; broken; vacant; unreadable])))
    <= 3 + 11 * length [notes; broken; vacant; unreadable] /\
  3 + length [notes; broken; vacant; unreadable] <=
    length (run_calls (process_of [] (client_with [notes; broken; vacant; unreadable])))
    <= 3 + 2 * length [notes; broken; vacant; unreadable].
Proof.
  apply (@output_is_linear_in_the_collections
           (process_of [] (client_with [notes; broken; vacant; unreadable]))
           (client_with [notes; broken; vacant; unreadable]) 1700000000%Z
           [notes; broken; vacant; unreadable]); reflexivity.
Defined.

(** ** How many metadata lines a sample gets *)







(** ** Blocks do not depend on their neighbours *)

Lemma shown_anywhere (cols : list Collection) (i : nat) :
  map shown (enumerate_from i cols) =
  map (fun c => (collection_header c ++ details_lines c)%list) cols.
Proof.
  revert i; induction cols as [|c cols IH]; intro i; [reflexivity |].
  cbn [enumerate_from map]. now rewrite IH, shown_block.
Qed.

(** X8.  What a run prints after its three opening lines for the
    collections [cols1 ++ cols2] is what a run over [cols1] prints there
    followed by what a run over [cols2] prints there: the block of a
    collection depends neither on its position nor on the collections
    around it. *)
Theorem blocks_compose
    (p p1 p2 : process) (client client1 client2 : Client) (hb hb1 hb2 : Z)
    (cols1 cols2 : list Collection) :
  HttpClient (chromadb_module p) "localhost" 8000%Z = Ok client ->
  heartbeat client = Ok hb ->
  list_collections client = Ok (cols1 ++ cols2)%list ->
  HttpClient (chromadb_module p1) "localhost" 8000%Z = Ok client1 ->
  heartbeat client1 = Ok hb1 ->
  list_collections client1 = Ok cols1 ->
  HttpClient (chromadb_module p2) "localhost" 8000%Z = Ok client2 ->
  heartbeat client2 = Ok hb2 ->
  list_collections client2 = Ok cols2 ->
  skipn 3 (run_stdout p) = (skipn 3 (run_stdout p1) ++ skipn 3 (run_stdout p2))%list.
Proof.
  intros H1 H2 H3 H11 H12 H13 H21 H22 H23.
  rewrite (stdout_listed _ H1 H2 H3), (stdout_listed _ H11 H12 H13),
    (stdout_listed _ H21 H22 H23).
  cbn [app skipn]. unfold enumerate.
  now rewrite !shown_anywhere, map_app, concat_app.
Qed.

Lemma blocks_compose_witness :
  skipn 3 (run_stdout (process_of [] (client_with ([notes; broken] ++ [vacant])))) =
  (skipn 3 (run_stdout (process_of [] (client_with [notes; broken]))) ++
   skipn 3 (run_stdout (process_of ["-v"] (client_with [vacant]))))%list.
Proof.
  apply (@blocks_compose
           (process_of [] (client_with ([notes; broken] ++ [vacant])))
           (process_of [] (client_with [notes; broken]))
           (process_of ["-v"] (client_with [vacant]))
           (client_with ([notes; broken] ++ [vacant]))
           (client_with [notes; broken]) (client_with [vacant])
           1700000000%Z 1700000000%Z 1700000000%Z
           [notes; broken] [vacant]); reflexivity.
Defined.

(** ** How many calls a run makes *)

Lemma calls_of_blocks_counted (cols : list Collection) (i : nat) :
  length (filter is_count_call (concat (map called (enumerate_from i cols)))) =
    length cols /\
  length (filter is_get_call (concat (map called (enumerate_from i cols)))) =
    length (filter has_documents cols) /\
  length (concat (map called (enumerate_from i cols))) =
    length cols + length (filter has_documents cols).
Proof.
  revert i; induction cols as [|c cols IH]; intro i; [now repeat split |].
  cbn [enumerate_from map concat]. rewrite !filter_app, !length_app.
  destruct (IH (S i)) as (Hc & Hg & Ht). rewrite Hc, Hg, Ht.
  rewrite called_block. cbn [fst snd filter]. unfold details_calls, has_documents.
  destruct (count c) as [n|e]; [destruct (0 <? n)%Z |]; cbn; repeat split; lia.
Qed.

(** X9.  A run that lists N collections makes exactly N [count] calls and
    exactly one [get] call per collection whose count is positive, so
    3 + N + (number of collections with documents) calls in all. *)
Theorem calls_are_counted
    (p : process) (client : Client) (hb : Z) (cols : list Collection) :
  HttpClient (chromadb_module p) "localhost" 8000%Z = Ok client ->
  heartbeat client = Ok hb ->
  list_collections client = Ok cols ->
  length (filter is_count_call (run_calls p)) = length cols /\
  length (filter is_get_call (run_calls p)) = length (filter has_documents cols) /\
  length (run_calls p) = 3 + length cols + length (filter has_documents cols).
Proof.
  intros H1 H2 H3. rewrite (calls_listed _ H1 H2 H3).
  destruct (calls_of_blocks_counted cols 0) as (Hc & Hg & Ht).
  unfold enumerate. rewrite !filter_app, !length_app, Hc, Hg, Ht.
  cbn. repeat split; lia.
Qed.

Lemma calls_are_counted_witness :
  length (filter is_count_call
            (run_calls (process_of [] (client_with [notes; broken; vacant; unreadable])))) =
    length [notes; broken; vacant; unreadable] /\
  length (filter is_get_call
            (run_calls (process_of [] (client_with [notes; broken; vacant; unreadable])))) =
    length (filter has_documents [notes; broken; vacant; unreadable]) /\
  length (run_calls (process_of [] (client_with [notes; broken; vacant; unreadable]))) =
    3 + length [notes; broken; vacant; unreadable] +
    length (filter has_documents [notes; broken; vacant; unreadable]).
Proof.
  apply (@calls_are_counted
           (process_of [] (client_with [notes; broken; vacant; unreadable]))
           (client_with [notes; broken; vacant; unreadable]) 1700000000%Z
           [notes; broken; vacant; unreadable]); reflexivity.
Defined.

(** ** More on previews *)

Lemma length_substring_prefix (n : nat) (s : string) :
  String.length (substring 0 n s) = Nat.min n (String.length s).
Proof.
  now rewrite !length_list_ascii, list_ascii_of_substring, length_firstn.
Qed.

Lemma length_string_append (a b : string) :
  String.length (a ++ b) = String.length a + String.length b.
Proof. induction a as [|ch a IH]; simpl; [reflexivity | now rewrite IH]. Qed.

Lemma substring_of_append (n : nat) (a b : string) :
  String.length a = n -> substring 0 n (a ++ b) = a.
Proof.
  revert n; induction a as [|ch a IH]; intros n H; simpl in H; subst n.
  - now destruct b.
  - simpl. now rewrite IH.
Qed.

(** X10.  A preview has the length of its document up to 100 characters
    and 103 characters beyond (so for a document of 101 or 102 characters
    it is longer than the document); its first 100 characters are those
    of the document; and previewing a preview changes nothing. *)
Theorem preview_keeps_the_first_hundred (doc : string) :
  String.length (preview doc) =
    (if (100 <? String.length doc)%nat then 103 else String.length doc) /\
  String.length (preview doc) <= 103 /\
  substring 0 100 (preview doc) = substring 0 100 doc /\
  preview (preview doc) = preview doc.
Proof.
  assert (Hdots : String.length "..." = 3) by reflexivity.
  destruct (100 <? String.length doc)%nat eqn:E.
  - apply Nat.ltb_lt in E.
    assert (Hsub : String.length (substring 0 100 doc) = 100).
    { rewrite length_substring_prefix. lia. }
    assert (Hlen : String.length (substring 0 100 doc ++ "...") = 103).
    { rewrite length_string_append, Hsub, Hdots. reflexivity. }
    assert (Hp : preview doc = substring 0 100 doc ++ "...").
    { unfold preview. apply Nat.ltb_lt in E. now rewrite E. }
    rewrite Hp.
    split; [exact Hlen | split; [rewrite Hlen; lia | split]].
    + now apply substring_of_append.
    + unfold preview. rewrite Hlen.
      destruct (Nat.ltb_spec 100 103) as [_ | H]; [| lia].
      now rewrite (@substring_of_append 100 _ "..." Hsub).
  - assert (Hp : preview doc = doc) by (unfold preview; now rewrite E).
    apply Nat.ltb_ge in E. rewrite !Hp.
    split; [reflexivity | split; [lia | split; reflexivity]].
Qed.
